(** * Ad server views: impression tracking and reports

    A shallow embedding of [adserver/views.py]:

    - the proxy views ([BaseProxyView], [AdViewProxyView],
      [AdClickProxyView]) that decide whether an ad view or click is billed;
    - the report views ([BaseReportView], [AllAdvertiserReportView],
      [AllPublisherReportView]) that aggregate daily reports.

    The views talk to the cache, the database, the rate limiter and the
    analytics sink.  Those effects are kept explicit: a handler is a function
    of the world it runs in, and gives back its outcome, the world it leaves
    and the calls it made, in order. *)

From Stdlib Require Import ZArith QArith Qround Ascii String List Bool Lia.
From stdpp Require Import base option countable gmap strings list.

Local Open Scope string_scope.
Local Open Scope list_scope.
Local Open Scope Z_scope.

(** ** Constants ([adserver/constants.py]) *)

Inductive impression_type := VIEWS | CLICKS.

#[global] Instance impression_type_eq_dec : EqDecision impression_type.
Proof. solve_decision. Defined.

#[global] Instance impression_type_countable : Countable impression_type :=
  inj_countable'
    (λ t, match t with VIEWS => false | CLICKS => true end)
    (λ b : bool, if b then CLICKS else VIEWS)
    (λ t, match t with VIEWS => eq_refl | CLICKS => eq_refl end).

Definition impression_type_eqb (a b : impression_type) : bool :=
  bool_decide (a = b).

(** Levels of the [logging] module. *)
Definition logging_DEBUG : Z := 10.
Definition logging_WARNING : Z := 30.

(** ** Python values the views test for truth *)

(** [bool(x)] for a value that is [None] or a string: [None] and the empty
    string are false. *)
Definition truthy (o : option string) : bool :=
  match o with
  | Some s => negb (String.eqb s "")
  | None => false
  end.

(** [x or d] where [x] is [None] or a string. *)
Definition py_or (o : option string) (d : string) : string :=
  match o with
  | Some s => if String.eqb s "" then d else s
  | None => d
  end.

(** [int(x)] for a decimal: the fraction is cut off, towards zero. *)
Definition py_int (q : Q) : Z := Z.quot (Qnum q) (Z.pos (Qden q)).

(** [x in xs] on a list or tuple of strings. *)
Definition str_in (x : string) (xs : list string) : bool :=
  existsb (String.eqb x) xs.

(** ** Data the views handle *)

(** [django.conf.settings], the part the views read. *)
Record Settings := {
  DEBUG : bool;
  TESTING : bool;
  INTERNAL_IPS : list string;
}.

(** The user of a request and the request itself. *)
Record User := {
  is_staff : bool;
  is_anonymous : bool;
}.

Record HttpRequest := {
  META : gmap string string;
  GET : gmap string string;
  user : User;
}.

(** What [user_agents.parse] gives. *)
Record UserAgent := {
  is_bot : bool;
  os_family : string;
  browser_family : string;
}.

(** The dictionary [get_geolocation] gives when it finds the address. *)
Record GeoData := {
  country_code : option string;
}.

Record Campaign := {
  campaign_type : string;
  advertiser : Z;                 (* foreign key to Advertiser *)
}.

Record Flight := {
  flight_pk : Z;
  cpc : Q;
  cpm : Q;
  campaign : Campaign;
}.

Record Advertisement := {
  ad_pk : Z;
  slug : string;
  link : string;
  flight : Flight;
}.

Record Publisher := {
  publisher_pk : Z;
  publisher_name : string;
}.

Record Advertiser := {
  advertiser_pk : Z;
  advertiser_name : string;
}.

(** [django.http.HttpResponse]: status, body and headers. *)
Record HttpResponse := {
  status_code : Z;
  content : string;
  headers : gmap string string;
}.

(** [HttpResponse(content, content_type=ct)] *)
Definition mkHttpResponse (body ct : string) : HttpResponse :=
  {| status_code := 200;
     content := body;
     headers := {[ "Content-Type" := ct ]} |}.

(** [response[name] = value] *)
Definition set_header (name value : string) (r : HttpResponse) : HttpResponse :=
  {| status_code := status_code r;
     content := content r;
     headers := <[ name := value ]> (headers r) |}.

(** ** The nonce store *)

Inductive nonce_state := VALID | CONSUMED.

Record nonce_entry := {
  n_state : nonce_state;
  n_expiry : Z;
}.

(** A nonce is scoped to an advertisement and an impression type. *)
Abbreviation nonce_key := (Z * impression_type * string)%type.
Abbreviation NonceStore := (gmap nonce_key nonce_entry).

(** Modelled from the spec: [Advertisement.is_valid_nonce] is in
    [adserver/models.py], which is not among the sources.  "true only if
    the token exists, matches the (ad, type) pair, is unexpired, and is
    still VALID". *)
Definition nonce_is_valid (store : NonceStore) (now : Z)
    (ad : Z) (ty : impression_type) (nonce : string) : bool :=
  match store !! (ad, ty, nonce) with
  | Some e =>
      match n_state e with
      | VALID => now <? n_expiry e
      | CONSUMED => false
      end
  | None => false
  end.

(** Modelled from the spec: [Advertisement.invalidate_nonce] is in
    [adserver/models.py], which is not among the sources.  "transitions
    VALID→CONSUMED"; consuming a nonce that is consumed, expired or unknown
    changes nothing. *)
Definition nonce_consume (store : NonceStore) (now : Z)
    (ad : Z) (ty : impression_type) (nonce : string) : NonceStore :=
  if nonce_is_valid store now ad ty nonce
  then alter (λ e, {| n_state := CONSUMED; n_expiry := n_expiry e |})
             (ad, ty, nonce) store
  else store.

(** ** Collaborators

    Functions of [adserver/utils.py] and [adserver/models.py] and of
    libraries, which the views call and which are not among the sources.
    The rate limiter and the impression counters keep state of their own:
    each works on its own store. *)
Class Collaborators := {
  settings : Settings;
  get_client_ip : HttpRequest → string;
  get_client_user_agent : HttpRequest → string;
  parse_user_agent : string → UserAgent;
  get_geolocation : string → option GeoData;
  is_blacklisted_user_agent : string → bool;
  (* Advertisement.get_publisher(nonce) *)
  get_publisher : NonceStore → Advertisement → string → option Publisher;
  (* Flight.show_to_geo(country_code) *)
  show_to_geo : Flight → option string → bool;
  (* is_click_ratelimited(request) *)
  RateStore : Type;
  is_click_ratelimited : RateStore → HttpRequest → bool * RateStore;
  (* Advertisement.track_impression(request, impression_type, publisher, referrer) *)
  CounterStore : Type;
  track_impression :
    CounterStore → Advertisement → HttpRequest → impression_type →
    option Publisher → option string → CounterStore;
}.

(** What the views take from the URL handling of Django and Python: the
    scheme that [urllib.parse] finds in a URL, empty when the URL has none,
    and [django.utils.encoding.iri_to_uri]. *)
Class UrlLibrary := {
  url_scheme : string → string;
  iri_to_uri : string → string;
}.

(** ** The world a request runs in, and what a handler does to it *)

Section ProxyViews.
Context `{Collaborators} {U : UrlLibrary}.

Record World := {
  advertisements : gmap Z Advertisement;   (* Advertisement.objects *)
  nonces : NonceStore;
  now : Z;
  counters : CounterStore;
  limiter : RateStore;
}.

Definition with_nonces (w : World) (n : NonceStore) : World :=
  {| advertisements := advertisements w; nonces := n; now := now w;
     counters := counters w; limiter := limiter w |}.

Definition with_counters (w : World) (c : CounterStore) : World :=
  {| advertisements := advertisements w; nonces := nonces w; now := now w;
     counters := c; limiter := limiter w |}.

Definition with_limiter (w : World) (l : RateStore) : World :=
  {| advertisements := advertisements w; nonces := nonces w; now := now w;
     counters := counters w; limiter := l |}.

(** The calls a handler makes outside itself. *)
Inductive Event :=
| Logged (level : Z) (msg : string)
| NonceChecked (ad : Z) (ty : impression_type) (nonce : string)
| NonceInvalidated (ad : Z) (ty : impression_type) (nonce : string)
| PublisherResolved (ad : Z) (nonce : string)
| Geolocated (ip : string)
| RateLimitChecked (ip : string)
| ImpressionTracked (ad : Z) (ty : impression_type)
    (publisher : option Publisher) (referrer : option string)
| AnalyticsEvent (category action label : string) (value : Z)
    (ua uip : string).

Inductive Exception := Http404 | NotImplementedError | DisallowedRedirect.

Inductive Outcome (A : Type) :=
| Returned (a : A)
| Raised (e : Exception).
Arguments Returned {A} a.
Arguments Raised {A} e.

(** A handler: from the world to its outcome, the world it leaves and the
    calls it made. *)
Definition M (A : Type) : Type := World → Outcome A * World * list Event.

#[global] Instance M_ret : MRet M := λ A a w, (Returned a, w, []).

#[global] Instance M_bind : MBind M := λ A B f m w,
  match m w with
  | (Returned a, w1, t1) =>
      match f a w1 with
      | (o, w2, t2) => (o, w2, t1 ++ t2)
      end
  | (Raised e, w1, t1) => (Raised e, w1, t1)
  end.

Definition raise {A} (e : Exception) : M A := λ w, (Raised e, w, []).

(** A call that returns or raises, and touches nothing. *)
Definition call {A} (o : Outcome A) : M A := λ w, (o, w, []).

(** [HttpResponseRedirect.allowed_schemes] *)
Definition allowed_schemes : list string := ["http"; "https"; "ftp"].

(** [HttpResponseRedirect(redirect_to)]: the location is
    [iri_to_uri(redirect_to)], and a URL with a scheme that is not one of
    the allowed ones is refused with [DisallowedRedirect]. *)
Definition HttpResponseRedirect (redirect_to : string) : Outcome HttpResponse :=
  let scheme := url_scheme redirect_to in
  if negb (String.eqb scheme "") && negb (str_in scheme allowed_schemes)
  then Raised DisallowedRedirect
  else
    Returned
      {| status_code := 302;
         content := "";
         headers := <[ "Location" := iri_to_uri redirect_to ]>
                      {[ "Content-Type" := "text/html; charset=utf-8" ]} |}.

Definition emit (e : Event) : M unit := λ w, (Returned tt, w, [e]).

(** [log.log(level, msg, ...)] *)
Definition log (level : Z) (msg : string) : M unit := emit (Logged level msg).

(** [get_object_or_404(Advertisement, pk=advertisement_id)] *)
Definition get_object_or_404 (pk : Z) : M Advertisement := λ w,
  match advertisements w !! pk with
  | Some ad => (Returned ad, w, [])
  | None => (Raised Http404, w, [])
  end.

(** [advertisement.get_publisher(nonce)] *)
Definition get_publisher_m (ad : Advertisement) (nonce : string)
  : M (option Publisher) := λ w,
  (Returned (get_publisher (nonces w) ad nonce), w,
   [PublisherResolved (ad_pk ad) nonce]).

(** [get_geolocation(ip_address)] *)
Definition get_geolocation_m (ip : string) : M (option GeoData) := λ w,
  (Returned (get_geolocation ip), w, [Geolocated ip]).

(** [advertisement.is_valid_nonce(impression_type, nonce)] *)
Definition is_valid_nonce (ad : Advertisement) (ty : impression_type)
    (nonce : string) : M bool := λ w,
  (Returned (nonce_is_valid (nonces w) (now w) (ad_pk ad) ty nonce), w,
   [NonceChecked (ad_pk ad) ty nonce]).

(** [advertisement.invalidate_nonce(impression_type, nonce)] *)
Definition invalidate_nonce (ad : Advertisement) (ty : impression_type)
    (nonce : string) : M unit := λ w,
  (Returned tt,
   with_nonces w (nonce_consume (nonces w) (now w) (ad_pk ad) ty nonce),
   [NonceInvalidated (ad_pk ad) ty nonce]).

(** [advertisement.track_impression(request, impression_type, publisher, referrer)] *)
Definition track_impression_m (ad : Advertisement) (request : HttpRequest)
    (ty : impression_type) (publisher : option Publisher)
    (referrer : option string) : M unit := λ w,
  (Returned tt,
   with_counters w (track_impression (counters w) ad request ty publisher referrer),
   [ImpressionTracked (ad_pk ad) ty publisher referrer]).

(** [is_click_ratelimited(request)] *)
Definition is_click_ratelimited_m (request : HttpRequest) : M bool := λ w,
  let '(b, l) := is_click_ratelimited (limiter w) request in
  (Returned b, with_limiter w l, [RateLimitChecked (get_client_ip request)]).

(** [analytics_event(...)] *)
Definition analytics_event (category action label : string) (value : Z)
    (ua uip : string) : M unit :=
  emit (AnalyticsEvent category action label value ua uip).

(** ** The proxy views *)

(** The classes of the module: the base class and its two subclasses. *)
Inductive ProxyView := BaseProxyView | AdViewProxyView | AdClickProxyView.

Definition log_level (self : ProxyView) : Z := logging_DEBUG.
Definition log_security_level (self : ProxyView) : Z := logging_WARNING.

Definition impression_type_of (self : ProxyView) : impression_type :=
  match self with
  | BaseProxyView => VIEWS
  | AdViewProxyView => VIEWS
  | AdClickProxyView => CLICKS
  end.

Definition success_message (self : ProxyView) : string :=
  match self with
  | BaseProxyView => "Billed impression"
  | AdViewProxyView => "Billed view"
  | AdClickProxyView => "Billed click"
  end.

(** [BaseProxyView.ignore_tracking_reason] *)
Definition ignore_tracking_reason (self : ProxyView) (request : HttpRequest)
    (advertisement : Advertisement) (nonce : string)
    (publisher : option Publisher) : M (option string) :=
  let ip_address := get_client_ip request in
  let user_agent := get_client_user_agent request in
  let parsed_ua := parse_user_agent user_agent in
  geo_data ← get_geolocation_m ip_address;
  let country_code :=
    match geo_data with
    | Some g => country_code g
    | None => None
    end in
  valid_nonce ← is_valid_nonce advertisement (impression_type_of self) nonce;
  if negb valid_nonce then
    log (log_level self) "Old or nonexistent impression nonce";;
    mret (Some "Old/Nonexistent nonce")
  else if is_bot parsed_ua then
    log (log_level self) "Bot impression. User Agent: [%s]";;
    mret (Some "Bot impression")
  else if str_in ip_address (INTERNAL_IPS settings) then
    log (log_level self) "Internal IP impression. User Agent: [%s]";;
    mret (Some "Internal IP")
  else if String.eqb (os_family parsed_ua) "Other"
          && String.eqb (browser_family parsed_ua) "Other" then
    log (log_level self) "Unknown user agent impression [%s]";;
    mret (Some "Unrecognized user agent")
  else if is_staff (user request) then
    log (log_level self) "Ignored staff user ad impression";;
    mret (Some "Staff impression")
  else if is_blacklisted_user_agent user_agent then
    log (log_level self) "Blacklisted user agent impression [%s]";;
    mret (Some "Blacklisted impression")
  else if negb (bool_decide (is_Some publisher)) then
    log (log_level self) "Ad impression for unknown publisher";;
    mret (Some "Unknown publisher")
  else if negb (show_to_geo (flight advertisement) country_code) then
    log (log_security_level self)
        "Invalid geo targeting for ad [%s]. Country: [%s]";;
    mret (Some "Invalid targeting impression")
  else if impression_type_eqb (impression_type_of self) CLICKS then
    limited ← is_click_ratelimited_m request;
    if (limited : bool) then
      log (log_security_level self)
          "User has clicked too many ads recently, IP = [%s], User Agent = [%s]";;
      mret (Some "Ratelimited impression")
    else mret None
  else mret None.

(** [send_to_analytics]: nothing in the base class and in the view proxy,
    an analytics event in the click proxy. *)
Definition send_to_analytics (self : ProxyView) (request : HttpRequest)
    (advertisement : Advertisement) (message : string) : M unit :=
  match self with
  | AdClickProxyView =>
      let ip_address := get_client_ip request in
      let user_agent := get_client_user_agent request in
      let event_category := "Advertisement" in
      let event_label := slug advertisement in
      let event_action := message in
      (* int(advertisement.flight.cpc * 100) *)
      let event_value := py_int (cpc (flight advertisement) * 100)%Q in
      analytics_event event_category event_action event_label event_value
                      user_agent ip_address
  | _ => mret tt
  end.

(** [get_response]: the base class leaves it to its subclasses. *)
Definition get_response (self : ProxyView) (request : HttpRequest)
    (advertisement : Advertisement) : M HttpResponse :=
  match self with
  | BaseProxyView => raise NotImplementedError
  | AdViewProxyView =>
      mret (mkHttpResponse "<svg><!-- View Proxy --></svg>" "image/svg+xml")
  | AdClickProxyView =>
      call (HttpResponseRedirect (link advertisement))
  end.

(** [BaseProxyView.get] *)
Definition get (self : ProxyView) (request : HttpRequest)
    (advertisement_id : Z) (nonce : string) : M HttpResponse :=
  advertisement ← get_object_or_404 advertisement_id;
  publisher ← get_publisher_m advertisement nonce;
  let referrer := META request !! "HTTP_REFERER" in
  ignore_reason ← ignore_tracking_reason self request advertisement nonce publisher;
  (if negb (truthy ignore_reason) then
     log (log_level self) (success_message self);;
     invalidate_nonce advertisement (impression_type_of self) nonce;;
     track_impression_m advertisement request (impression_type_of self)
                        publisher referrer
   else mret tt);;
  let message := py_or ignore_reason (success_message self) in
  response ← get_response self request advertisement;
  if DEBUG settings || TESTING settings || is_staff (user request)
  then mret (set_header "X-Adserver-Reason" message response)
  else mret response.

End ProxyViews.

Arguments Returned {A} a.
Arguments Raised {A} e.

(** ** Reports *)

(** One day of a report ([report["days"]]) and its totals
    ([report["total"]]), as [daily_reports] gives them; the keys the views
    read. *)
Record DayRow := {
  day_date : Z;
  day_views : Z;
  day_clicks : Z;
  day_cost : Q;
}.

Record Totals := {
  total_views : Z;
  total_clicks : Z;
  total_cost : Q;
  total_ctr : Q;
}.

Record Report := {
  days : list DayRow;
  total : Totals;
}.

(** The tables the report views query.  Dates are counted in days. *)
Record AdImpression := {
  imp_date : Z;
  imp_publisher : option Z;       (* foreign key, nullable *)
  imp_advertisement : Z;          (* foreign key *)
  imp_views : Z;
  imp_clicks : Z;
  imp_cost : Q;
}.

Record Database := {
  AdImpression_objects : list AdImpression;
  Advertisement_objects : list Advertisement;
  Advertiser_objects : list Advertiser;
  Publisher_objects : list Publisher;
}.

(** Modelled from the spec: [calculate_ctr] is in [adserver/utils.py],
    which is not among the sources.  "CTR = clicks/views × 100 when
    views > 0, else 0". *)
Definition calculate_ctr (clicks views : Z) : Q :=
  if 0 <? views then (inject_Z clicks / inject_Z views * 100)%Q else 0%Q.

(** Modelled from the spec: [calculate_ecpm] is in [adserver/utils.py],
    which is not among the sources.  "ECPM = cost/views × 1000 when
    views > 0, else 0". *)
Definition calculate_ecpm (cost : Q) (views : Z) : Q :=
  if 0 <? views then (cost / inject_Z views * 1000)%Q else 0%Q.

(** What the report views take from outside this module. *)
Class ReportCollaborators := {
  CAMPAIGN_TYPES : list string;
  (* get_ad_day(): today *)
  get_ad_day : Z;
  (* timezone.make_aware(datetime.strptime(s, "%Y-%m-%d")); None for ValueError *)
  strptime_ymd : string → option Z;
  (* date.strftime("%Y-%m-%d") *)
  strftime_ymd : Z → string;
  (* float(x): the double nearest to x, as the number it is *)
  py_float : Q → Q;
  (* x + y on doubles: the sum, rounded to a double *)
  float_add : Q → Q → Q;
  (* Advertiser.daily_reports(start_date, end_date) *)
  advertiser_daily_reports : Database → Advertiser → Z → option Z → Report;
  (* Publisher.daily_reports(start_date, end_date) *)
  publisher_daily_reports : Database → Publisher → Z → option Z → Report;
}.

(** The values of a template context. *)
Inductive Value :=
| VNone
| VStr (s : string)
| VDate (d : Z)
| VInt (n : Z)
| VNum (q : Q)
| VStrs (l : list string)
| VAdvertisers (l : list Advertiser)
| VPublishers (l : list Publisher)
| VAdvertiserReports (l : list (Advertiser * Report))
| VPublisherReports (l : list (Publisher * Report)).

Definition VOptDate (d : option Z) : Value :=
  match d with Some d => VDate d | None => VNone end.

(** [sum(...)] over integers and over costs. *)
Definition sum_Z (l : list Z) : Z := fold_left Z.add l 0.
Definition sum_Q (l : list Q) : Q := fold_left Qplus l 0%Q.

(** One day of a report merged over entities: [days[day["date"]]], a
    [defaultdict(int)] holding these keys. *)
Record DayAgg := {
  agg_date : string;
  agg_views : Z;
  agg_clicks : Z;
  agg_cost : Q;
  agg_ctr : Q;
  views_by_entity : gmap string Z;
  clicks_by_entity : gmap string Z;
}.

(** The [defaultdict(int)] a date starts with: counters read as 0, the two
    breakdowns are empty; "date" and "ctr" are written before they are
    read. *)
Definition new_day : DayAgg :=
  {| agg_date := ""; agg_views := 0; agg_clicks := 0; agg_cost := 0%Q;
     agg_ctr := 0%Q; views_by_entity := ∅; clicks_by_entity := ∅ |}.

Module BaseReportView.
Section BaseReportView.
Context `{ReportCollaborators}.

Definition DEFAULT_REPORT_DAYS : Z := 30.

Definition _parse_date_string (date_str : string) : option Z :=
  match strptime_ymd date_str with
  | Some d => Some d
  | None => None       (* except ValueError: pass *)
  end.

Definition get_start_date (request : HttpRequest) : Z :=
  match GET request !! "start_date" with
  | Some s =>
      match _parse_date_string s with
      | Some start_date => start_date
      | None => get_ad_day - DEFAULT_REPORT_DAYS
      end
  | None => get_ad_day - DEFAULT_REPORT_DAYS
  end.

Definition get_end_date (request : HttpRequest) : option Z :=
  match GET request !! "end_date" with
  | Some s =>
      match _parse_date_string s with
      | Some end_date => Some end_date
      | None => None
      end
  | None => None
  end.

(** The three entries of the base context. *)
Record Context := {
  start_date : Z;
  end_date : option Z;
  ctx_campaign_type : string;
}.

Definition context_data (request : HttpRequest) : Context :=
  let start_date := get_start_date request in
  let end_date := get_end_date request in
  let campaign_type := default "" (GET request !! "campaign_type") in
  let end_date :=
    match end_date with
    | Some e => if e <? start_date then None else Some e
    | None => None
    end in
  {| start_date := start_date; end_date := end_date;
     ctx_campaign_type := campaign_type |}.

Definition to_dict (c : Context) : gmap string Value :=
  <[ "start_date" := VDate (start_date c) ]>
  (<[ "end_date" := VOptDate (end_date c) ]>
  (<[ "campaign_type" := VStr (ctx_campaign_type c) ]> ∅)).

Definition get_context_data (request : HttpRequest) : gmap string Value :=
  to_dict (context_data request).

(** [test_func]: reports are for staff. *)
Definition test_func (request : HttpRequest) : bool :=
  is_staff (user request).

End BaseReportView.
End BaseReportView.

(** The loop that merges the reports of several entities by day, the same
    in both views up to the name of the entity. *)
Section Aggregate.
Context `{ReportCollaborators}.

(** The costs of some rows added to a cost one after the other, each as the
    sum of two doubles: [cost += float(day["cost"])]. *)
Definition add_costs (rows : list DayRow) (cost : Q) : Q :=
  fold_left (λ c row, float_add c (py_float (day_cost row))) rows cost.

Definition add_day (name : string) (acc : gmap Z DayAgg) (day : DayRow)
  : gmap Z DayAgg :=
  let d := default new_day (acc !! day_date day) in
  let views := agg_views d + day_views day in
  let clicks := agg_clicks d + day_clicks day in
  <[ day_date day :=
       {| agg_date := strftime_ymd (day_date day);
          agg_views := views;
          agg_clicks := clicks;
          agg_cost := float_add (agg_cost d) (py_float (day_cost day));
          agg_ctr := calculate_ctr clicks views;
          views_by_entity := <[ name := day_views day ]> (views_by_entity d);
          clicks_by_entity := <[ name := day_clicks day ]> (clicks_by_entity d) |} ]>
  acc.

Definition add_report (acc : gmap Z DayAgg) (nr : string * Report)
  : gmap Z DayAgg :=
  fold_left (add_day (fst nr)) (days (snd nr)) acc.

Definition aggregate_days (named_reports : list (string * Report))
  : gmap Z DayAgg :=
  fold_left add_report named_reports ∅.

End Aggregate.

Module AllAdvertiserReportView.
Section AllAdvertiserReportView.
Context `{ReportCollaborators}.

(** The advertisers with an impression of one of their ads in the range. *)
Definition impressions_in_range (db : Database) (c : BaseReportView.Context)
  : list AdImpression :=
  let impressions :=
    filter (λ i, BaseReportView.start_date c ≤ imp_date i)
           (AdImpression_objects db) in
  match BaseReportView.end_date c with
  | Some e => filter (λ i, imp_date i ≤ e) impressions
  | None => impressions
  end.

Definition advertisers_selected (db : Database) (c : BaseReportView.Context)
  : list Advertiser :=
  let impressions := impressions_in_range db c in
  let ads :=
    filter (λ a, ad_pk a ∈ map imp_advertisement impressions)
           (Advertisement_objects db) in
  filter (λ a, advertiser_pk a
               ∈ map (λ ad, advertiser (campaign (flight ad))) ads)
         (Advertiser_objects db).

Definition advertisers_and_reports (db : Database) (c : BaseReportView.Context)
  : list (Advertiser * Report) :=
  filter (λ ar, 0 < total_views (total (snd ar)))
    (map (λ a, (a, advertiser_daily_reports db a
                     (BaseReportView.start_date c) (BaseReportView.end_date c)))
         (advertisers_selected db c)).

(** The local [days] of [get_context_data]. *)
Definition days_by_date (db : Database) (c : BaseReportView.Context)
  : gmap Z DayAgg :=
  aggregate_days
    (map (λ ar, (advertiser_name (fst ar), snd ar)) (advertisers_and_reports db c)).

Definition get_context_data (db : Database) (request : HttpRequest)
  : gmap string Value :=
  let c := BaseReportView.context_data request in
  let context := BaseReportView.to_dict c in
  let advertisers_and_reports := advertisers_and_reports db c in
  let total_clicks :=
    sum_Z (map (λ ar, total_clicks (total (snd ar))) advertisers_and_reports) in
  let total_views :=
    sum_Z (map (λ ar, total_views (total (snd ar))) advertisers_and_reports) in
  let total_cost :=
    sum_Q (map (λ ar, total_cost (total (snd ar))) advertisers_and_reports) in
  let days := days_by_date db c in
  <[ "advertisers" := VAdvertisers (map fst advertisers_and_reports) ]>
  (<[ "advertisers_and_reports" := VAdvertiserReports advertisers_and_reports ]>
  (<[ "total_clicks" := VInt total_clicks ]>
  (<[ "total_cost" := VNum total_cost ]>
  (<[ "total_views" := VInt total_views ]>
  (<[ "total_ctr" := VNum (calculate_ctr total_clicks total_views) ]>
  (<[ "total_ecpm" := VNum (calculate_ecpm total_cost total_views) ]>
  context)))))).

End AllAdvertiserReportView.
End AllAdvertiserReportView.

Module AllPublisherReportView.
Section AllPublisherReportView.
Context `{ReportCollaborators}.

(** [advertisement__flight__campaign__campaign_type = c]: the join with the
    advertisement of the impression. *)
Definition has_campaign_type (db : Database) (ct : string) (i : AdImpression)
  : bool :=
  existsb (λ ad, bool_decide (ad_pk ad = imp_advertisement i)
                 && String.eqb (campaign_type (campaign (flight ad))) ct)
          (Advertisement_objects db).

Definition impressions_selected (db : Database) (c : BaseReportView.Context)
  : list AdImpression :=
  let impressions :=
    filter (λ i, BaseReportView.start_date c ≤ imp_date i)
           (AdImpression_objects db) in
  let impressions :=
    match BaseReportView.end_date c with
    | Some e => filter (λ i, imp_date i ≤ e) impressions
    | None => impressions
    end in
  if negb (String.eqb (BaseReportView.ctx_campaign_type c) "")
     && str_in (BaseReportView.ctx_campaign_type c) CAMPAIGN_TYPES
  then filter (λ i, has_campaign_type db (BaseReportView.ctx_campaign_type c) i)
              impressions
  else impressions.

Definition publishers_selected (db : Database) (c : BaseReportView.Context)
  : list Publisher :=
  filter (λ p, Some (publisher_pk p)
               ∈ map imp_publisher (impressions_selected db c))
         (Publisher_objects db).

Definition publishers_and_reports (db : Database) (c : BaseReportView.Context)
  : list (Publisher * Report) :=
  filter (λ pr, 0 < total_views (total (snd pr)))
    (map (λ p, (p, publisher_daily_reports db p
                     (BaseReportView.start_date c) (BaseReportView.end_date c)))
         (publishers_selected db c)).

(** The local [days] of [get_context_data]. *)
Definition days_by_date (db : Database) (c : BaseReportView.Context)
  : gmap Z DayAgg :=
  aggregate_days
    (map (λ pr, (publisher_name (fst pr), snd pr)) (publishers_and_reports db c)).

Definition get_context_data (db : Database) (request : HttpRequest)
  : gmap string Value :=
  let c := BaseReportView.context_data request in
  let context := BaseReportView.to_dict c in
  let publishers_and_reports := publishers_and_reports db c in
  let total_clicks :=
    sum_Z (map (λ pr, total_clicks (total (snd pr))) publishers_and_reports) in
  let total_views :=
    sum_Z (map (λ pr, total_views (total (snd pr))) publishers_and_reports) in
  let total_cost :=
    sum_Q (map (λ pr, total_cost (total (snd pr))) publishers_and_reports) in
  let days := days_by_date db c in
  <[ "publishers" := VPublishers (map fst publishers_and_reports) ]>
  (<[ "publishers_and_reports" := VPublisherReports publishers_and_reports ]>
  (<[ "total_clicks" := VInt total_clicks ]>
  (<[ "total_cost" := VNum total_cost ]>
  (<[ "total_views" := VInt total_views ]>
  (<[ "total_ctr" := VNum (calculate_ctr total_clicks total_views) ]>
  (<[ "total_ecpm" := VNum (calculate_ecpm total_cost total_views) ]>
  (<[ "campaign_types" := VStrs CAMPAIGN_TYPES ]>
  context))))))).

End AllPublisherReportView.
End AllPublisherReportView.

(** ** Reading the result of a handler *)

Section Results.
Context `{Collaborators} {U : UrlLibrary}.

Definition outcome_of {A} (r : Outcome A * World * list Event) : Outcome A := r.1.1.
Definition world_of {A} (r : Outcome A * World * list Event) : World := r.1.2.
Definition trace_of {A} (r : Outcome A * World * list Event) : list Event := r.2.

(** The calls that bill: consuming the nonce and recording the impression. *)
Definition is_billing_event (e : Event) : bool :=
  match e with
  | NonceInvalidated _ _ _ => true
  | ImpressionTracked _ _ _ _ => true
  | _ => false
  end.

Definition is_analytics_event (e : Event) : bool :=
  match e with
  | AnalyticsEvent _ _ _ _ _ _ => true
  | _ => false
  end.

(** The rules of the filter as the specification lists them, in its order:
    whether each one matches the request, and its reason. *)
Definition filter_rules (self : ProxyView) (request : HttpRequest)
    (advertisement : Advertisement) (nonce : string)
    (publisher : option Publisher) (w : World) : list (bool * string) :=
  let ua := parse_user_agent (get_client_user_agent request) in
  let country :=
    match get_geolocation (get_client_ip request) with
    | Some g => country_code g
    | None => None
    end in
  [ (negb (nonce_is_valid (nonces w) (now w) (ad_pk advertisement)
             (impression_type_of self) nonce),
     "Old/Nonexistent nonce");
    (is_bot ua, "Bot impression");
    (str_in (get_client_ip request) (INTERNAL_IPS settings), "Internal IP");
    (String.eqb (os_family ua) "Other" && String.eqb (browser_family ua) "Other",
     "Unrecognized user agent");
    (is_staff (user request), "Staff impression");
    (is_blacklisted_user_agent (get_client_user_agent request),
     "Blacklisted impression");
    (match publisher with Some _ => false | None => true end,
     "Unknown publisher");
    (negb (show_to_geo (flight advertisement) country),
     "Invalid targeting impression");
    (bool_decide (impression_type_of self = CLICKS)
       && (is_click_ratelimited (limiter w) request).1,
     "Ratelimited impression") ].

(** The reason of the first rule that matches, [None] when none does. *)
Fixpoint first_match (rules : list (bool * string)) : option string :=
  match rules with
  | [] => None
  | (matches, reason) :: rest =>
      if matches then Some reason else first_match rest
  end.

(** What [get] leaves of a world [w] when it bills: the nonce consumed and
    the impression recorded. *)
Definition billed_world (self : ProxyView) (request : HttpRequest)
    (ad : Advertisement) (nonce : string) (publisher : option Publisher)
    (w : World) : World :=
  with_counters
    (with_nonces w
       (nonce_consume (nonces w) (now w) (ad_pk ad) (impression_type_of self) nonce))
    (track_impression (counters w) ad request (impression_type_of self)
       publisher (META request !! "HTTP_REFERER")).

(** The calls of [get] when it bills. *)
Definition billing_trace (self : ProxyView) (request : HttpRequest)
    (ad : Advertisement) (nonce : string) (publisher : option Publisher)
  : list Event :=
  [ Logged (log_level self) (success_message self);
    NonceInvalidated (ad_pk ad) (impression_type_of self) nonce;
    ImpressionTracked (ad_pk ad) (impression_type_of self) publisher
      (META request !! "HTTP_REFERER") ].

(** The response of each class, before the reason is attached. *)
Definition plain_response (self : ProxyView) (ad : Advertisement)
  : Outcome HttpResponse :=
  match self with
  | BaseProxyView => Raised NotImplementedError
  | AdViewProxyView =>
      Returned (mkHttpResponse "<svg><!-- View Proxy --></svg>" "image/svg+xml")
  | AdClickProxyView => HttpResponseRedirect (link ad)
  end.

(** The settings in which the reason is shown: debugging or testing. *)
Definition diagnostic_context : bool := DEBUG settings || TESTING settings.

End Results.

Arguments filter_rules : simpl never.

(** ** A small deployment, to run the views on

    Stand-ins for the collaborators: addresses and user agents are read from
    the request headers, one user agent is a bot, nobody is geolocated, the
    rate limiter counts the checks per address and limits from the fourth,
    and the counters are the list of recorded impressions. *)
Module Sample.

Definition client_ip (r : HttpRequest) : string :=
  default "" (META r !! "REMOTE_ADDR").

Definition client_user_agent (r : HttpRequest) : string :=
  default "" (META r !! "HTTP_USER_AGENT").

Definition parse (ua : string) : UserAgent :=
  if String.eqb ua "Googlebot" then
    {| is_bot := true; os_family := "Other"; browser_family := "Googlebot" |}
  else if String.eqb ua "" then
    {| is_bot := false; os_family := "Other"; browser_family := "Other" |}
  else
    {| is_bot := false; os_family := "Linux"; browser_family := "Firefox" |}.

Definition the_publisher : Publisher :=
  {| publisher_pk := 7; publisher_name := "docs" |}.

Definition rate_limited (s : gmap string Z) (r : HttpRequest)
  : bool * gmap string Z :=
  let n := default 0 (s !! client_ip r) in
  (bool_decide (3 ≤ n), <[ client_ip r := n + 1 ]> s).

Definition collaborators (debug testing : bool) : Collaborators :=
  {| settings := {| DEBUG := debug; TESTING := testing;
                    INTERNAL_IPS := ["127.0.0.1"] |};
     get_client_ip := client_ip;
     get_client_user_agent := client_user_agent;
     parse_user_agent := parse;
     get_geolocation := λ _, None;
     is_blacklisted_user_agent := λ ua, String.eqb ua "curl";
     get_publisher := λ store ad nonce,
       if bool_decide (is_Some (store !! (ad_pk ad, VIEWS, nonce)))
          || bool_decide (is_Some (store !! (ad_pk ad, CLICKS, nonce)))
       then Some the_publisher else None;
     show_to_geo := λ _ _, true;
     RateStore := gmap string Z;
     is_click_ratelimited := rate_limited;
     CounterStore := list (Z * impression_type);
     track_impression := λ c ad _ ty _ _, (ad_pk ad, ty) :: c |}.

Definition the_ad : Advertisement :=
  {| ad_pk := 1; slug := "ad-one"; link := "https://example.com/";
     flight := {| flight_pk := 1; cpc := 2; cpm := 0;
                  campaign := {| campaign_type := "paid"; advertiser := 1 |} |} |}.

Definition world (debug testing : bool) : @World (collaborators debug testing) :=
  @Build_World (collaborators debug testing)
    (* advertisements *) {[ 1 := the_ad ]}
    (* nonces *)
    (<[ (1, CLICKS, "n-click") := {| n_state := VALID; n_expiry := 100 |} ]>
    (<[ (1, VIEWS, "n-view") := {| n_state := VALID; n_expiry := 100 |} ]>
    (<[ (1, CLICKS, "n-used") := {| n_state := CONSUMED; n_expiry := 100 |} ]> ∅)))
    (* now *) 10
    (* counters *) []
    (* limiter *) ∅.

(** The scheme of a URL of the examples: what stands before its first
    colon; these URLs are plain ASCII, which [iri_to_uri] leaves as it is. *)
Fixpoint before_colon (s : string) : option string :=
  match s with
  | EmptyString => None
  | String c rest =>
      if Ascii.eqb c ":"%char then Some EmptyString
      else String c <$> before_colon rest
  end.

Definition urls : UrlLibrary :=
  {| url_scheme := λ url, default "" (before_colon url);
     iri_to_uri := λ url, url |}.



Definition visitor : HttpRequest :=
  {| META := <[ "REMOTE_ADDR" := "203.0.113.5" ]>
             {[ "HTTP_USER_AGENT" := "Mozilla/5.0" ]};
     GET := ∅;
     user := {| is_staff := false; is_anonymous := true |} |}.

Definition bot : HttpRequest :=
  {| META := <[ "REMOTE_ADDR" := "203.0.113.5" ]>
             {[ "HTTP_USER_AGENT" := "Googlebot" ]};
     GET := ∅;
     user := {| is_staff := false; is_anonymous := true |} |}.

End Sample.

(** ** Reading the merged days *)

(** The rows of a date among the rows of some reports. *)
Definition rows_on (d : Z) (rows : list DayRow) : list DayRow :=
  filter (λ r, day_date r = d) rows.

Definition all_rows (named_reports : list (string * Report)) : list DayRow :=
  concat (map (λ nr, days nr.2) named_reports).

(** The keys of the context that each of the two views returns. *)
Definition base_keys : gset string :=
  {[ "start_date"; "end_date"; "campaign_type" ]}.

Definition advertiser_context_keys : gset string :=
  {[ "advertisers"; "advertisers_and_reports"; "total_clicks"; "total_cost";
     "total_views"; "total_ctr"; "total_ecpm" ]} ∪ base_keys.

Definition publisher_context_keys : gset string :=
  {[ "publishers"; "publishers_and_reports"; "total_clicks"; "total_cost";
     "total_views"; "total_ctr"; "total_ecpm"; "campaign_types" ]} ∪ base_keys.

(** A request without its [campaign_type] parameter. *)
Definition without_campaign_type (request : HttpRequest) : HttpRequest :=
  {| META := META request;
     GET := delete "campaign_type" (GET request);
     user := user request |}.

(** ** Daily reports, to run the report views on *)

(** Modelled from the spec: [Publisher.daily_reports] and
    [Advertiser.daily_reports] are in [adserver/models.py], which is not
    among the sources.  "Pulls ImpressionRecord rows for the entity set
    within [startDate, endDate] (or open-ended if endDate is absent)"; a row
    per date holds the sums of that date, the totals are the sums over the
    range, and the CTR is derived from them. *)
Definition in_range (sd : Z) (ed : option Z) (i : AdImpression) : bool :=
  (sd <=? imp_date i)
  && match ed with Some e => imp_date i <=? e | None => true end.

Fixpoint add_to_day (i : AdImpression) (rows : list DayRow) : list DayRow :=
  match rows with
  | [] =>
      [ {| day_date := imp_date i; day_views := imp_views i;
           day_clicks := imp_clicks i; day_cost := imp_cost i |} ]
  | r :: rest =>
      if imp_date i =? day_date r then
        {| day_date := day_date r;
           day_views := day_views r + imp_views i;
           day_clicks := day_clicks r + imp_clicks i;
           day_cost := Qred (day_cost r + imp_cost i) |} :: rest
      else if imp_date i <? day_date r then
        {| day_date := imp_date i; day_views := imp_views i;
           day_clicks := imp_clicks i; day_cost := imp_cost i |} :: r :: rest
      else r :: add_to_day i rest
  end.

Definition report_of (imps : list AdImpression) : Report :=
  let views := sum_Z (map imp_views imps) in
  let clicks := sum_Z (map imp_clicks imps) in
  {| days := foldr add_to_day [] imps;
     total := {| total_views := views;
                 total_clicks := clicks;
                 total_cost := Qred (sum_Q (map imp_cost imps));
                 total_ctr := Qred (calculate_ctr clicks views) |} |}.

Definition publisher_report (db : Database) (p : Publisher)
    (sd : Z) (ed : option Z) : Report :=
  report_of
    (List.filter
       (λ i, in_range sd ed i
             && bool_decide (imp_publisher i = Some (publisher_pk p)))
       (AdImpression_objects db)).

Definition advertiser_report (db : Database) (a : Advertiser)
    (sd : Z) (ed : option Z) : Report :=
  report_of
    (List.filter
       (λ i, in_range sd ed i
             && existsb (λ ad, bool_decide (ad_pk ad = imp_advertisement i)
                               && bool_decide (advertiser (campaign (flight ad))
                                               = advertiser_pk a))
                        (Advertisement_objects db))
       (AdImpression_objects db)).

(** Stand-ins for the rest: today is 2020-03-01, and the parser knows the
    dates of the examples.  Dates are days since 1970-01-01.  The costs of
    the examples are whole numbers and halves, which doubles hold and add
    without rounding. *)
Module SampleReports.

Definition parse_date (s : string) : option Z :=
  if String.eqb s "2020-01-01" then Some 18262
  else if String.eqb s "2020-01-15" then Some 18276
  else if String.eqb s "2020-02-10" then Some 18302
  else if String.eqb s "2020-02-11" then Some 18303
  else None.

Definition format_date (d : Z) : string :=
  if d =? 18262 then "2020-01-01"
  else if d =? 18276 then "2020-01-15"
  else if d =? 18302 then "2020-02-10"
  else if d =? 18303 then "2020-02-11"
  else "".

Definition collaborators : ReportCollaborators :=
  {| CAMPAIGN_TYPES := ["paid"; "affiliate"; "community"; "house"];
     get_ad_day := 18322;
     strptime_ymd := parse_date;
     strftime_ymd := format_date;
     py_float := λ x, x;
     float_add := Qplus;
     advertiser_daily_reports := advertiser_report;
     publisher_daily_reports := publisher_report |}.

Definition ad (pk adv : Z) (ct : string) : Advertisement :=
  {| ad_pk := pk; slug := "ad"; link := "https://example.com/";
     flight := {| flight_pk := pk; cpc := 1; cpm := 0;
                  campaign := {| campaign_type := ct; advertiser := adv |} |} |}.

Definition impression (date pub adv views clicks : Z) (cost : Q)
  : AdImpression :=
  {| imp_date := date; imp_publisher := Some pub; imp_advertisement := adv;
     imp_views := views; imp_clicks := clicks; imp_cost := cost |}.

Definition alpha : Publisher := {| publisher_pk := 1; publisher_name := "alpha" |}.
Definition beta : Publisher := {| publisher_pk := 2; publisher_name := "beta" |}.
Definition gamma : Publisher := {| publisher_pk := 3; publisher_name := "gamma" |}.
Definition delta : Publisher := {| publisher_pk := 4; publisher_name := "delta" |}.

Definition acme : Advertiser := {| advertiser_pk := 1; advertiser_name := "acme" |}.
Definition globex : Advertiser := {| advertiser_pk := 2; advertiser_name := "globex" |}.

(** On 2020-02-10 alpha and beta each have 10 views, 1 click and a cost of
    1.00, and delta has a click and no view; on 2020-02-11 gamma has views
    of a paid and of a house campaign. *)
Definition db : Database :=
  {| AdImpression_objects :=
       [ impression 18302 1 1 10 1 1;
         impression 18302 2 1 10 1 1;
         impression 18302 4 2 0 1 (1 # 2);
         impression 18303 3 1 4 0 0;
         impression 18303 3 2 6 1 (1 # 2) ];
     Advertisement_objects := [ ad 1 1 "paid"; ad 2 2 "house" ];
     Advertiser_objects := [ acme; globex ];
     Publisher_objects := [ alpha; beta; gamma; delta ] |}.

Definition request (params : gmap string string) : HttpRequest :=
  {| META := ∅; GET := params;
     user := {| is_staff := true; is_anonymous := false |} |}.

End SampleReports.

(** ** Do Not Track *)

(** [django.conf.settings], the part the Do Not Track views read. *)
Record DntSettings := {
  ADSERVER_DO_NOT_TRACK : bool;
  ADSERVER_PRIVACY_POLICY_URL : option string;
}.

(** [JsonResponse(data, content_type=ct)]: the dictionary it serializes. *)
Record JsonResponse := {
  json_status_code : Z;
  json_content_type : string;
  json_data : gmap string string;
}.

(** [render(request, template, content_type=ct)] *)
Record Rendered := {
  template_name : string;
  rendered_content_type : string;
}.

(** [do_not_track] *)
Definition do_not_track (s : DntSettings) (request : HttpRequest)
  : Outcome JsonResponse :=
  if negb (ADSERVER_DO_NOT_TRACK s) then Raised Http404
  else
    let dnt_header := META request !! "HTTP_DNT" in
    let data : gmap string string :=
      {[ "tracking" := if bool_decide (dnt_header = Some "1") then "N" else "T" ]} in
    let data :=
      if truthy (ADSERVER_PRIVACY_POLICY_URL s)
      then <[ "policy" := default "" (ADSERVER_PRIVACY_POLICY_URL s) ]> data
      else data in
    Returned {| json_status_code := 200;
                json_content_type := "application/tracking-status+json";
                json_data := data |}.

(** [do_not_track_policy] *)
Definition do_not_track_policy (s : DntSettings) (request : HttpRequest)
  : Outcome Rendered :=
  if negb (ADSERVER_DO_NOT_TRACK s) then Raised Http404
  else Returned {| template_name := "adserver/dnt-policy.txt";
                   rendered_content_type := "text/plain" |}.

(** ** The dashboard and the reports of one advertiser or publisher *)

(** What these views take from outside this module: the advertisers and
    publishers of a user, the slug columns, and the daily report of one
    advertisement. *)
Class Accounts := {
  (* request.user.publishers.all() *)
  user_publishers : User → list Publisher;
  (* request.user.advertisers.all() *)
  user_advertisers : User → list Advertiser;
  advertiser_slug : Advertiser → string;
  publisher_slug : Publisher → string;
  (* Advertisement.daily_reports(start_date, end_date) *)
  advertisement_daily_reports : Database → Advertisement → Z → option Z → Report;
}.

(** How a view of this part ends when it does not return. *)
Inductive ViewError := NotFound | MultipleObjectsReturned | KeyError.

Inductive ViewResult (A : Type) :=
| Done (a : A)
| Failed (e : ViewError).
Arguments Done {A} a.
Arguments Failed {A} e.

(** [@login_required] lets a user through who [is_authenticated], which for
    Django's users is the opposite of [is_anonymous]; any other user is sent
    to the login page. *)
Inductive Dashboard :=
| LoginRedirect
| DashboardPage (advertisers : list Advertiser) (publishers : list Publisher).

(** The values of the context of a report of one entity. *)
Inductive EntityValue :=
| EBase (v : Value)
| EAdvertiser (a : Advertiser)
| EPublisher (p : Publisher)
| EReport (r : Report)
| EAdReports (l : list (Advertisement * Report)).

Section EntityViews.
Context `{ReportCollaborators} `{Accounts}.

(** [dashboard] *)
Definition dashboard (db : Database) (request : HttpRequest) : Dashboard :=
  if is_anonymous (user request) then LoginRedirect
  else if is_staff (user request) then
    DashboardPage (Advertiser_objects db) (Publisher_objects db)
  else
    DashboardPage (user_advertisers (user request))
                  (user_publishers (user request)).

(** [Model.objects.get(...)] on the rows that match, under
    [get_object_or_404]: it turns [DoesNotExist] into a 404. *)
Definition get_or_404 {A} (rows : list A) : ViewResult A :=
  match rows with
  | [] => Failed NotFound
  | [x] => Done x
  | _ :: _ :: _ => Failed MultipleObjectsReturned
  end.

(** [get_object_or_404(Advertiser, slug=slug)] *)
Definition advertiser_or_404 (db : Database) (slug : string)
  : ViewResult Advertiser :=
  get_or_404 (filter (λ a, advertiser_slug a = slug) (Advertiser_objects db)).

(** [get_object_or_404(Publisher, slug=slug)] *)
Definition publisher_or_404 (db : Database) (slug : string)
  : ViewResult Publisher :=
  get_or_404 (filter (λ p, publisher_slug p = slug) (Publisher_objects db)).

(** [context.update(...)] for the entries of a report of one entity. *)
Definition entity_context (c : BaseReportView.Context)
  : gmap string EntityValue :=
  EBase <$> BaseReportView.to_dict c.

End EntityViews.

Module AdvertiserReportView.
Section AdvertiserReportView.
Context `{ReportCollaborators} `{Accounts}.

(** [test_func]: [advertiser in request.user.advertisers.all()] compares
    primary keys. *)
Definition test_func (db : Database) (request : HttpRequest)
    (kwargs : gmap string string) : ViewResult bool :=
  if is_anonymous (user request) then Done false
  else
    match kwargs !! "advertiser_slug" with
    | None => Failed KeyError
    | Some slug =>
        match advertiser_or_404 db slug with
        | Failed e => Failed e
        | Done advertiser_obj =>
            Done (is_staff (user request)
                  || bool_decide (advertiser_pk advertiser_obj
                                  ∈ map advertiser_pk
                                        (user_advertisers (user request))))
        end
    end.

Definition get_context_data (db : Database) (request : HttpRequest)
    (kwargs : gmap string string) : ViewResult (gmap string EntityValue) :=
  let c := BaseReportView.context_data request in
  let context := entity_context c in
  let advertiser_slug := default "" (kwargs !! "advertiser_slug") in
  match advertiser_or_404 db advertiser_slug with
  | Failed e => Failed e
  | Done advertiser_obj =>
      let advertisements :=
        filter (λ ad, advertiser (campaign (flight ad)) = advertiser_pk advertiser_obj)
               (Advertisement_objects db) in
      let ads_and_reports :=
        filter (λ ar, total_views (total (snd ar)) ≠ 0)
          (map (λ ad, (ad, advertisement_daily_reports db ad
                             (BaseReportView.start_date c)
                             (BaseReportView.end_date c)))
               advertisements) in
      let advertiser_report :=
        advertiser_daily_reports db advertiser_obj
          (BaseReportView.start_date c) (BaseReportView.end_date c) in
      Done
        (<[ "advertiser" := EAdvertiser advertiser_obj ]>
        (<[ "advertiser_report" := EReport advertiser_report ]>
        (<[ "ads_and_reports" := EAdReports ads_and_reports ]>
        (<[ "total_clicks" :=
              EBase (VInt (total_clicks (total advertiser_report))) ]>
        (<[ "total_cost" :=
              EBase (VNum (total_cost (total advertiser_report))) ]>
        (<[ "total_views" :=
              EBase (VInt (total_views (total advertiser_report))) ]>
        (<[ "total_ctr" :=
              EBase (VNum (total_ctr (total advertiser_report))) ]>
        context)))))))
  end.

End AdvertiserReportView.
End AdvertiserReportView.

Module PublisherReportView.
Section PublisherReportView.
Context `{ReportCollaborators} `{Accounts}.

(** [test_func]: [publisher in request.user.publishers.all()] compares
    primary keys. *)
Definition test_func (db : Database) (request : HttpRequest)
    (kwargs : gmap string string) : ViewResult bool :=
  if is_anonymous (user request) then Done false
  else
    match kwargs !! "publisher_slug" with
    | None => Failed KeyError
    | Some slug =>
        match publisher_or_404 db slug with
        | Failed e => Failed e
        | Done publisher =>
            Done (is_staff (user request)
                  || bool_decide (publisher_pk publisher
                                  ∈ map publisher_pk
                                        (user_publishers (user request))))
        end
    end.

Definition get_context_data (db : Database) (request : HttpRequest)
    (kwargs : gmap string string) : ViewResult (gmap string EntityValue) :=
  let c := BaseReportView.context_data request in
  let context := entity_context c in
  let publisher_slug := default "" (kwargs !! "publisher_slug") in
  match publisher_or_404 db publisher_slug with
  | Failed e => Failed e
  | Done publisher =>
      let report :=
        publisher_daily_reports db publisher
          (BaseReportView.start_date c) (BaseReportView.end_date c) in
      Done (<[ "publisher" := EPublisher publisher ]>
           (<[ "report" := EReport report ]> context))
  end.

End PublisherReportView.
End PublisherReportView.

(** ** More ways to read a run and the merged days *)

Definition is_log (e : Event) : bool :=
  match e with Logged _ _ => true | _ => false end.

Definition is_rate_check (e : Event) : bool :=
  match e with RateLimitChecked _ => true | _ => false end.

(** The rows of the reports that go by one name. *)
Definition rows_named (name : string) (named_reports : list (string * Report))
  : list DayRow :=
  all_rows (filter (λ nr, nr.1 = name) named_reports).

(** The views of all merged days together. *)
Definition merged_views (m : gmap Z DayAgg) : Z :=
  sum_Z (map (λ da, agg_views da.2) (map_to_list m)).

Definition merged_clicks (m : gmap Z DayAgg) : Z :=
  sum_Z (map (λ da, agg_clicks da.2) (map_to_list m)).

Section MergedDay.
Context `{ReportCollaborators}.

(** What a date of the merged days is to the rows of the reports merged:
    absent when no report has a row of the date, and otherwise the day with
    the sums of the views and of the clicks of the rows of the date, their
    costs added as doubles in the order of the rows, the CTR of the summed
    clicks and views, and the date as text. *)
Definition merges (named_reports : list (string * Report)) (d : Z)
    (merged : option DayAgg) : Prop :=
  match merged with
  | Some a =>
      rows_on d (all_rows named_reports) ≠ []
      ∧ agg_date a = strftime_ymd d
      ∧ agg_views a = sum_Z (map day_views (rows_on d (all_rows named_reports)))
      ∧ agg_clicks a = sum_Z (map day_clicks (rows_on d (all_rows named_reports)))
      ∧ agg_cost a = add_costs (rows_on d (all_rows named_reports)) 0
      ∧ agg_ctr a = calculate_ctr (agg_clicks a) (agg_views a)
  | None => rows_on d (all_rows named_reports) = []
  end.

End MergedDay.

(** Stand-ins for the accounts: a member who has the advertiser acme and the
    publisher alpha, slugs that are the names, and the daily report of an
    advertisement from its impressions. *)
Module SampleAccounts.

Definition advertisement_report (db : Database) (ad : Advertisement)
    (sd : Z) (ed : option Z) : Report :=
  report_of
    (List.filter
       (λ i, in_range sd ed i && bool_decide (imp_advertisement i = ad_pk ad))
       (AdImpression_objects db)).

Definition accounts : Accounts :=
  {| user_publishers := λ u, if is_staff u then [] else [SampleReports.alpha];
     user_advertisers := λ u, if is_staff u then [] else [SampleReports.acme];
     advertiser_slug := advertiser_name;
     publisher_slug := publisher_name;
     advertisement_daily_reports := advertisement_report |}.

Definition member (params : gmap string string) : HttpRequest :=
  {| META := ∅; GET := params;
     user := {| is_staff := false; is_anonymous := false |} |}.

End SampleAccounts.

(** * Properties of the proxy views *)

Section ProxyViewFacts.
Context `{Collaborators} {U : UrlLibrary}.

(** Unfolds one run of a handler down to the tests it makes. *)
Ltac run :=
  unfold outcome_of, world_of, trace_of, mbind, M_bind, mret, M_ret,
    log, emit, raise, get_geolocation_m, is_valid_nonce, invalidate_nonce,
    track_impression_m, is_click_ratelimited_m, get_publisher_m,
    get_object_or_404, analytics_event, impression_type_eqb, call; simpl.

Lemma Returned_inj {A} (a b : A) : Returned a = Returned b → a = b.
Proof. intros Heq. by inversion Heq. Qed.

Lemma first_match_none rules :
  first_match rules = None ↔ Forall (λ r, r.1 = false) rules.
Proof.
  induction rules as [|[c r] rules IH]; simpl.
  - split; [constructor | done].
  - destruct c; split; try done.
    + intros Hall. by inversion Hall.
    + intros Hn. constructor; [done | by apply IH].
    + intros Hall. inversion Hall; subst. by apply IH.
Qed.

Lemma first_match_some rules r :
  first_match rules = Some r ↔
  ∃ i : nat, rules !! i = Some (true, r)
    ∧ ∀ (j : nat) c s, (j < i)%nat → rules !! j = Some (c, s) → c = false.
Proof.
  induction rules as [|[c s] rules IH]; simpl.
  - split; [done | intros (i & Hi & _); by destruct i].
  - destruct c.
    + split.
      * intros [= <-]. exists 0%nat. split; [done | intros; lia].
      * intros (i & Hi & Hlt). destruct i as [|i]; [by inversion Hi |].
        specialize (Hlt 0%nat true s). simpl in Hlt.
        assert (true = false) by (apply Hlt; [lia | done]). done.
    + rewrite IH. split.
      * intros (i & Hi & Hlt). exists (S i). split; [done |].
        intros [|j] c' s' Hj Hl; simpl in Hl; [by inversion Hl |].
        apply (Hlt j c' s'); [lia | done].
      * intros (i & Hi & Hlt). destruct i as [|i]; [by inversion Hi |].
        exists i. split; [done |].
        intros j c' s' Hj Hl. apply (Hlt (S j) c' s'); [lia | done].
Qed.

(** One run of the filter: it answers with the first rule of the list that
    matches; of the world it changes the rate limiter at most; it neither
    bills nor sends anything to analytics. *)
Lemma ignore_tracking_reason_run self request ad nonce publisher w :
  let r := ignore_tracking_reason self request ad nonce publisher w in
  outcome_of r
    = Returned (first_match (filter_rules self request ad nonce publisher w))
  ∧ (∃ l, world_of r = with_limiter w l)
  ∧ Forall (λ e, is_billing_event e = false ∧ is_analytics_event e = false)
           (trace_of r).
Proof.
  assert (Hw : w = with_limiter w (limiter w)) by (by destruct w).
  unfold ignore_tracking_reason, filter_rules. run.
  assert (Hstop : ∀ (s : option string) (t : list Event),
    Forall (λ e, is_billing_event e = false ∧ is_analytics_event e = false) t →
    Returned s = Returned s
    ∧ (∃ l, w = with_limiter w l)
    ∧ Forall (λ e, is_billing_event e = false ∧ is_analytics_event e = false) t)
    by (intros; repeat split; eauto).
  destruct (nonce_is_valid _ _ _ _ _); simpl;
    [| by apply Hstop; repeat constructor].
  destruct (is_bot _); simpl; [by apply Hstop; repeat constructor |].
  destruct (str_in _ _); simpl; [by apply Hstop; repeat constructor |].
  destruct (String.eqb (os_family _) _ && String.eqb (browser_family _) _);
    simpl; [by apply Hstop; repeat constructor |].
  destruct (is_staff _); simpl; [by apply Hstop; repeat constructor |].
  destruct (is_blacklisted_user_agent _); simpl;
    [by apply Hstop; repeat constructor |].
  destruct publisher as [p|]; simpl; [| by apply Hstop; repeat constructor].
  destruct (show_to_geo _ _); simpl; [| by apply Hstop; repeat constructor].
  destruct self; simpl; try (by apply Hstop; repeat constructor).
  destruct (is_click_ratelimited _ _) as [[] l]; simpl;
    (split; [done | split; [by exists l | repeat constructor]]).
Qed.

Lemma ignore_tracking_reason_outcome self request ad nonce publisher w :
  outcome_of (ignore_tracking_reason self request ad nonce publisher w)
  = Returned (first_match (filter_rules self request ad nonce publisher w)).
Proof. apply ignore_tracking_reason_run. Qed.

(** Every reason of the list is a string that Python takes for true. *)
Lemma first_match_truthy self request ad nonce publisher w :
  truthy (first_match (filter_rules self request ad nonce publisher w))
  = match first_match (filter_rules self request ad nonce publisher w) with
    | Some _ => true
    | None => false
    end.
Proof.
  unfold filter_rules. simpl.
  repeat (match goal with
          | |- context [if ?c then _ else _] => destruct c; simpl; try done
          end).
Qed.

(** One run of [get] for an advertisement that exists, in terms of the run of
    the filter inside it. *)
Lemma get_run self request id nonce ad w :
  advertisements w !! id = Some ad →
  let publisher := get_publisher (nonces w) ad nonce in
  let f := ignore_tracking_reason self request ad nonce publisher w in
  let reason := first_match (filter_rules self request ad nonce publisher w) in
  let message := default (success_message self) reason in
  get self request id nonce w =
    (match plain_response self ad with
     | Returned r =>
         Returned (if DEBUG settings || TESTING settings || is_staff (user request)
                   then set_header "X-Adserver-Reason" message r else r)
     | Raised e => Raised e
     end,
     match reason with
     | Some _ => world_of f
     | None => billed_world self request ad nonce publisher (world_of f)
     end,
     PublisherResolved (ad_pk ad) nonce
       :: trace_of f
       ++ match reason with
          | Some _ => []
          | None => billing_trace self request ad nonce publisher
          end).
Proof.
  intros Had publisher f reason message.
  pose proof (ignore_tracking_reason_run self request ad nonce publisher w)
    as (Hout & _ & _).
  pose proof (first_match_truthy self request ad nonce publisher w) as Htruthy.
  fold f in Hout. fold reason in Hout, Htruthy.
  assert (Hmsg : py_or reason (success_message self) = message).
  { subst message. destruct reason as [s|] eqn:Hr; simpl; [|done].
    simpl in Htruthy. by destruct (String.eqb s ""). }
  unfold get. run. rewrite Had. simpl.
  fold publisher. fold f.
  destruct f as [[o w1] t1]. unfold outcome_of in Hout. simpl in Hout.
  subst o. rewrite Hmsg. clear Hmsg.
  unfold world_of, trace_of, billed_world, billing_trace. simpl.
  destruct reason as [s|]; simpl in *.
  - rewrite Htruthy. simpl.
    destruct self; simpl; rewrite ?app_nil_r;
      try destruct (HttpResponseRedirect (link ad)); simpl;
      try destruct (DEBUG settings || TESTING settings || is_staff (user request)).
    all: by rewrite ?app_nil_r.
  - destruct self; simpl;
      try destruct (HttpResponseRedirect (link ad)); simpl;
      try destruct (DEBUG settings || TESTING settings || is_staff (user request));
      simpl; by rewrite ?app_nil_r.
Qed.

(** What [get] does to the world and which calls it makes, by the answer
    of the filter. *)
Lemma get_rejected self request id nonce ad w r :
  advertisements w !! id = Some ad →
  outcome_of (ignore_tracking_reason self request ad nonce
                (get_publisher (nonces w) ad nonce) w) = Returned (Some r) →
  nonces (world_of (get self request id nonce w)) = nonces w
  ∧ counters (world_of (get self request id nonce w)) = counters w
  ∧ Forall (λ e, is_billing_event e = false)
           (trace_of (get self request id nonce w)).
Proof.
  intros Had Hr.
  pose proof (ignore_tracking_reason_run self request ad nonce
                (get_publisher (nonces w) ad nonce) w) as (Hout & [l Hl] & Htr).
  rewrite Hout in Hr. apply Returned_inj in Hr.
  rewrite (get_run _ _ _ _ _ _ Had), Hr. unfold world_of, trace_of. simpl.
  unfold world_of in Hl. rewrite Hl. simpl. repeat split.
  constructor; [done |]. rewrite app_nil_r.
  eapply Forall_impl; [exact Htr | by intros e [? _]].
Qed.

Lemma get_accepted self request id nonce ad w :
  advertisements w !! id = Some ad →
  outcome_of (ignore_tracking_reason self request ad nonce
                (get_publisher (nonces w) ad nonce) w) = Returned None →
  let publisher := get_publisher (nonces w) ad nonce in
  nonces (world_of (get self request id nonce w))
    = nonce_consume (nonces w) (now w) (ad_pk ad) (impression_type_of self) nonce
  ∧ counters (world_of (get self request id nonce w))
    = track_impression (counters w) ad request (impression_type_of self)
        publisher (META request !! "HTTP_REFERER")
  ∧ ∃ t, trace_of (get self request id nonce w)
         = t ++ billing_trace self request ad nonce publisher
         ∧ Forall (λ e, is_billing_event e = false ∧ is_analytics_event e = false) t.
Proof.
  intros Had Hr publisher.
  pose proof (ignore_tracking_reason_run self request ad nonce publisher w)
    as (Hout & [l Hl] & Htr).
  fold publisher in Hr. rewrite Hout in Hr. apply Returned_inj in Hr.
  rewrite (get_run _ _ _ _ _ _ Had). fold publisher. rewrite Hr.
  unfold world_of, trace_of. simpl.
  unfold world_of in Hl. rewrite Hl. simpl. repeat split.
  eexists (_ :: _). split; [reflexivity |].
  constructor; [done | exact Htr].
Qed.

(** No run of [get] sends anything to analytics. *)
Lemma get_sends_no_analytics self request id nonce w :
  Forall (λ e, is_analytics_event e = false)
         (trace_of (get self request id nonce w)).
Proof.
  destruct (advertisements w !! id) as [ad|] eqn:Had.
  - pose proof (ignore_tracking_reason_run self request ad nonce
                  (get_publisher (nonces w) ad nonce) w) as (_ & _ & Htr).
    rewrite (get_run _ _ _ _ _ _ Had). unfold trace_of. cbn [snd].
    constructor; [done |]. apply Forall_app. split.
    + eapply Forall_impl; [exact Htr | by intros e [_ ?]].
    + destruct (first_match (filter_rules self request ad nonce
                               (get_publisher (nonces w) ad nonce) w));
        unfold billing_trace; repeat constructor.
  - unfold get. run. rewrite Had. constructor.
Qed.

(** A nonce that is not valid is rule one, whatever else holds. *)
Lemma invalid_nonce_first self request ad nonce publisher w :
  nonce_is_valid (nonces w) (now w) (ad_pk ad) (impression_type_of self) nonce
    = false →
  first_match (filter_rules self request ad nonce publisher w)
    = Some "Old/Nonexistent nonce".
Proof. intros Hv. unfold filter_rules. simpl. by rewrite Hv. Qed.

(** When the filter lets a request through, its nonce was valid. *)
Lemma accepted_nonce_valid self request ad nonce publisher w :
  first_match (filter_rules self request ad nonce publisher w) = None →
  nonce_is_valid (nonces w) (now w) (ad_pk ad) (impression_type_of self) nonce
    = true.
Proof.
  unfold filter_rules. simpl.
  by destruct (nonce_is_valid _ _ _ _ _).
Qed.

(** The nonce store: a consumed nonce is not valid at any time, and consuming
    a valid nonce leaves it consumed. *)
Lemma consumed_not_valid (store : NonceStore) t ad ty nonce :
  n_state <$> store !! (ad, ty, nonce) = Some CONSUMED →
  nonce_is_valid store t ad ty nonce = false.
Proof.
  unfold nonce_is_valid. destruct (store !! _) as [e|]; simpl; [|done].
  intros [= ->]. done.
Qed.

Lemma consume_valid (store : NonceStore) t ad ty nonce :
  nonce_is_valid store t ad ty nonce = true →
  n_state <$> nonce_consume store t ad ty nonce !! (ad, ty, nonce)
    = Some CONSUMED.
Proof.
  intros Hv. unfold nonce_consume. rewrite Hv.
  rewrite lookup_alter_eq. unfold nonce_is_valid in Hv.
  by destruct (store !! _).
Qed.

(** C1.  The fraud filter ([BaseProxyView.ignore_tracking_reason]) tries its
    rules in one fixed order: invalid nonce, bot user agent, internal IP,
    unrecognized user agent (OS family and browser family both "Other"),
    staff user, blacklisted user agent, unknown publisher, geo-targeting that
    does not allow the country, and (for the impression type CLICKS only) the
    click rate limit.  It returns the reason of the first rule that matches,
    and [None] when no rule matches. *)
Theorem ignore_tracking_reason_first_rule self request ad nonce publisher w :
  let rules := filter_rules self request ad nonce publisher w in
  let reason := first_match rules in
  outcome_of (ignore_tracking_reason self request ad nonce publisher w)
    = Returned reason
  ∧ map snd rules
    = [ "Old/Nonexistent nonce"; "Bot impression"; "Internal IP";
        "Unrecognized user agent"; "Staff impression";
        "Blacklisted impression"; "Unknown publisher";
        "Invalid targeting impression"; "Ratelimited impression" ]
  ∧ (impression_type_of self ≠ CLICKS →
     rules !! 8%nat = Some (false, "Ratelimited impression"))
  ∧ (∀ r, reason = Some r ↔
          ∃ i : nat, rules !! i = Some (true, r)
            ∧ ∀ (j : nat) c s, (j < i)%nat → rules !! j = Some (c, s) → c = false)
  ∧ (reason = None ↔ Forall (λ rule, rule.1 = false) rules).
Proof.
  intros rules reason. split; [apply ignore_tracking_reason_outcome |].
  split; [done |]. split.
  - intros Hty. subst rules. unfold filter_rules. simpl.
    by rewrite bool_decide_false.
  - split; [intros r; apply first_match_some | apply first_match_none].
Qed.

(** C3.  When the filter rejects a request, [get] consumes no nonce and
    changes no impression counter: it calls neither [invalidate_nonce] nor
    [track_impression].  A request with a consumed nonce is rejected with
    "Old/Nonexistent nonce", and a request that is billed leaves its nonce
    consumed.  The nonce of a rejected request stays as it was, so it is as
    valid afterwards, at any time before it expires, as it was before. *)
Theorem rejected_request_bills_nothing self request id nonce ad w :
  advertisements w !! id = Some ad →
  let key := (ad_pk ad, impression_type_of self, nonce) in
  let filter :=
    outcome_of (ignore_tracking_reason self request ad nonce
                  (get_publisher (nonces w) ad nonce) w) in
  let after := world_of (get self request id nonce w) in
  (∀ r, filter = Returned (Some r) →
     nonces after = nonces w
     ∧ counters after = counters w
     ∧ Forall (λ e, is_billing_event e = false)
              (trace_of (get self request id nonce w))
     ∧ ∀ t, nonce_is_valid (nonces after) t (ad_pk ad) (impression_type_of self) nonce
            = nonce_is_valid (nonces w) t (ad_pk ad) (impression_type_of self) nonce)
  ∧ (n_state <$> nonces w !! key = Some CONSUMED →
     filter = Returned (Some "Old/Nonexistent nonce")
     ∧ nonces after = nonces w
     ∧ counters after = counters w)
  ∧ (filter = Returned None →
     n_state <$> nonces after !! key = Some CONSUMED).
Proof.
  intros Had key filter after.
  assert (Hrej : ∀ r, filter = Returned (Some r) →
            nonces after = nonces w ∧ counters after = counters w
            ∧ Forall (λ e, is_billing_event e = false)
                     (trace_of (get self request id nonce w))).
  { intros r Hr. by apply (get_rejected _ _ _ _ _ _ r Had). }
  split; [| split].
  - intros r Hr. destruct (Hrej r Hr) as (Hn & Hc & Ht).
    repeat split; try done. intros t. by rewrite Hn.
  - intros Hused.
    assert (Hf : filter = Returned (Some "Old/Nonexistent nonce")).
    { subst filter. rewrite ignore_tracking_reason_outcome. f_equal.
      apply invalid_nonce_first. by apply consumed_not_valid. }
    destruct (Hrej _ Hf) as (Hn & Hc & _). done.
  - intros Hacc.
    destruct (get_accepted _ _ _ _ _ _ Had Hacc) as (Hn & _ & _).
    subst after key. rewrite Hn. apply consume_valid.
    subst filter. rewrite ignore_tracking_reason_outcome in Hacc.
    apply Returned_inj in Hacc. by apply accepted_nonce_valid in Hacc.
Qed.


(** C5.  For an advertisement id that matches no advertisement, [get] raises
    [Http404] (the not-found response) and does nothing else: the world is
    as it was and no call was made, so no nonce was checked or consumed, the
    filter did not run, no counter changed and nothing went to analytics. *)
Theorem unknown_advertisement_not_found self request id nonce w :
  advertisements w !! id = None →
  get self request id nonce w = (Raised Http404, w, []).
Proof.
  intros Had. unfold get. run. by rewrite Had.
Qed.

End ProxyViewFacts.

Section Diagnostics.
Context {U : UrlLibrary}.

(** C6.  The header [X-Adserver-Reason] carries the reason of the rejection,
    or the success message of the class, and is set only when the settings
    are those of debugging or testing or when the user is staff; otherwise
    the response has no such header.  Two runs of one request by a visitor
    who is not staff, outside debugging and testing, give the same response
    whatever the filter decides in each. *)
Theorem reason_header_for_diagnostics_only (E1 E2 : Collaborators)
    self request id nonce ad (w1 : @World E1) (w2 : @World E2) :
  advertisements w1 !! id = Some ad →
  advertisements w2 !! id = Some ad →
  let reason :=
    first_match (filter_rules (H:=E1) self request ad nonce
                   (@get_publisher E1 (nonces w1) ad nonce) w1) in
  (∀ resp, outcome_of (get (H:=E1) self request id nonce w1) = Returned resp →
     headers resp !! "X-Adserver-Reason"
     = if diagnostic_context (H:=E1) || is_staff (user request)
       then Some (default (success_message self) reason)
       else None)
  ∧ (diagnostic_context (H:=E1) || is_staff (user request) = false →
     diagnostic_context (H:=E2) || is_staff (user request) = false →
     outcome_of (get (H:=E1) self request id nonce w1)
     = outcome_of (get (H:=E2) self request id nonce w2)).
Proof.
  intros Had1 Had2 reason. unfold diagnostic_context. split.
  - intros resp. rewrite (get_run _ _ _ _ _ _ Had1).
    unfold outcome_of. cbn [fst]. subst reason.
    assert (Hplain : ∀ r0, plain_response self ad = Returned r0 →
              headers r0 !! "X-Adserver-Reason" = None).
    { destruct self; cbn [plain_response]; [done | |].
      - intros r0 Hr0. apply Returned_inj in Hr0. subst r0.
        cbn [mkHttpResponse headers]. by rewrite lookup_singleton_ne.
      - unfold HttpResponseRedirect.
        destruct (negb _ && negb _); [done |].
        intros r0 Hr0. apply Returned_inj in Hr0. subst r0. cbn [headers].
        rewrite lookup_insert_ne by done. by rewrite lookup_singleton_ne. }
    destruct (plain_response self ad) as [r0|e]; [| done].
    specialize (Hplain r0 eq_refl).
    intros Hresp. apply Returned_inj in Hresp. subst resp.
    destruct (DEBUG settings || TESTING settings || is_staff (user request));
      cbn [set_header headers]; [| done].
    rewrite lookup_insert_eq. reflexivity.
  - intros Hno1 Hno2.
    rewrite (get_run _ _ _ _ _ _ Had1), (get_run _ _ _ _ _ _ Had2).
    unfold outcome_of. cbn [fst]. rewrite Hno1, Hno2. done.
Qed.

End Diagnostics.

Section OnTheSample.
#[local] Existing Instance Sample.urls.

(** C2.  On a click that the filter accepts, [get] consumes the nonce and
    records the impression, and sends nothing to analytics: it never calls
    [send_to_analytics], which for this request would send the billed
    click. *)
Theorem accepted_click_reaches_no_analytics :
  let E := Sample.collaborators false false in
  let w := Sample.world false false in
  let run := get (H:=E) AdClickProxyView Sample.visitor 1 "n-click" w in
  outcome_of (ignore_tracking_reason (H:=E) AdClickProxyView Sample.visitor
                Sample.the_ad "n-click" (Some Sample.the_publisher) w)
    = Returned None
  ∧ trace_of run
    = [ PublisherResolved 1 "n-click";
        Geolocated "203.0.113.5";
        NonceChecked 1 CLICKS "n-click";
        RateLimitChecked "203.0.113.5";
        Logged 10 "Billed click";
        NonceInvalidated 1 CLICKS "n-click";
        ImpressionTracked 1 CLICKS (Some Sample.the_publisher) None ]
  ∧ counters (world_of run) = [(1, CLICKS)]
  ∧ existsb is_analytics_event (trace_of run) = false
  ∧ trace_of (send_to_analytics (H:=E) AdClickProxyView Sample.visitor
                Sample.the_ad "Billed click" w)
    = [ AnalyticsEvent "Advertisement" "Billed click" "ad-one" 200
          "Mozilla/5.0" "203.0.113.5" ].
Proof.
  intros E w run. subst run.
  split_and!; vm_compute; reflexivity.
Qed.

(** The theorems with a premise, on the sample deployment. *)

Lemma rejected_request_bills_nothing_witness :
  let E := Sample.collaborators false false in
  let w := Sample.world false false in
  let after := world_of (get (H:=E) AdClickProxyView Sample.bot 1 "n-click" w) in
  advertisements w !! 1 = Some Sample.the_ad
  ∧ nonces after = nonces w
  ∧ counters after = counters w.
Proof.
  intros E w after.
  assert (Had : advertisements w !! 1 = Some Sample.the_ad)
    by (vm_compute; reflexivity).
  destruct (rejected_request_bills_nothing (H:=E) AdClickProxyView Sample.bot
              1 "n-click" Sample.the_ad w Had) as [Hrej _].
  destruct (Hrej "Bot impression") as (Hn & Hc & _).
  - vm_compute; reflexivity.
  - exact (conj Had (conj Hn Hc)).
Defined.



Lemma unknown_advertisement_not_found_witness :
  let E := Sample.collaborators false false in
  let w := Sample.world false false in
  advertisements w !! 99 = None
  ∧ get (H:=E) AdViewProxyView Sample.visitor 99 "n-view" w
    = (Raised Http404, w, []).
Proof.
  intros E w.
  assert (Had : advertisements w !! 99 = None) by (vm_compute; reflexivity).
  exact (conj Had (unknown_advertisement_not_found (H:=E) AdViewProxyView
                     Sample.visitor 99 "n-view" w Had)).
Defined.

Lemma reason_header_for_diagnostics_only_witness :
  let E := Sample.collaborators false false in
  let w1 := Sample.world false false in
  let w2 := world_of (get (H:=E) AdViewProxyView Sample.visitor 1 "n-view" w1) in
  outcome_of (ignore_tracking_reason (H:=E) AdViewProxyView Sample.visitor
                Sample.the_ad "n-view" (Some Sample.the_publisher) w1)
    = Returned None
  ∧ outcome_of (ignore_tracking_reason (H:=E) AdViewProxyView Sample.visitor
                  Sample.the_ad "n-view" (Some Sample.the_publisher) w2)
    = Returned (Some "Old/Nonexistent nonce")
  ∧ outcome_of (get (H:=E) AdViewProxyView Sample.visitor 1 "n-view" w1)
    = outcome_of (get (H:=E) AdViewProxyView Sample.visitor 1 "n-view" w2).
Proof.
  intros E w1 w2.
  assert (Had1 : advertisements w1 !! 1 = Some Sample.the_ad)
    by (vm_compute; reflexivity).
  assert (Had2 : advertisements w2 !! 1 = Some Sample.the_ad)
    by (vm_compute; reflexivity).
  destruct (reason_header_for_diagnostics_only E E AdViewProxyView
              Sample.visitor 1 "n-view" Sample.the_ad w1 w2 Had1 Had2)
    as [_ Hsame].
  split; [vm_compute; reflexivity |].
  split; [vm_compute; reflexivity |].
  apply Hsame; reflexivity.
Defined.

End OnTheSample.

(** * Properties of the report views *)

Section Sums.

Lemma fold_left_Zadd (l : list Z) (a : Z) :
  fold_left Z.add l a = a + sum_Z l.
Proof.
  unfold sum_Z. revert a. induction l as [|x l IH]; intros a.
  - simpl. lia.
  - cbn [fold_left]. rewrite (IH (a + x)), (IH (0 + x)). lia.
Qed.

Lemma sum_Z_cons (x : Z) (l : list Z) : sum_Z (x :: l) = x + sum_Z l.
Proof. unfold sum_Z at 1. cbn [fold_left]. rewrite fold_left_Zadd. lia. Qed.

Lemma sum_Z_app (l1 l2 : list Z) : sum_Z (l1 ++ l2) = sum_Z l1 + sum_Z l2.
Proof.
  induction l1 as [|x l1 IH]; simpl; [done |].
  rewrite !sum_Z_cons, IH. lia.
Qed.

Lemma fold_left_Qplus (l : list Q) (a : Q) :
  (fold_left Qplus l a == a + sum_Q l)%Q.
Proof.
  unfold sum_Q. revert a. induction l as [|x l IH]; intros a.
  - simpl. ring.
  - cbn [fold_left]. rewrite (IH (a + x)%Q), (IH (0 + x)%Q). ring.
Qed.

Lemma sum_Q_cons (x : Q) (l : list Q) : (sum_Q (x :: l) == x + sum_Q l)%Q.
Proof.
  unfold sum_Q at 1. cbn [fold_left]. rewrite fold_left_Qplus. ring.
Qed.

Lemma sum_Q_app (l1 l2 : list Q) : (sum_Q (l1 ++ l2) == sum_Q l1 + sum_Q l2)%Q.
Proof.
  induction l1 as [|x l1 IH]; simpl.
  - unfold sum_Q at 2. simpl. ring.
  - rewrite !sum_Q_cons, IH. ring.
Qed.

End Sums.

Section AggregateFacts.
Context `{ReportCollaborators}.

Lemma rows_on_cons d r rows :
  rows_on d (r :: rows)
  = if decide (day_date r = d) then r :: rows_on d rows else rows_on d rows.
Proof. unfold rows_on. by rewrite filter_cons. Qed.

Lemma rows_on_app d rows1 rows2 :
  rows_on d (rows1 ++ rows2) = rows_on d rows1 ++ rows_on d rows2.
Proof. unfold rows_on. apply filter_app. Qed.

Lemma add_day_other name acc day d :
  day_date day ≠ d → add_day name acc day !! d = acc !! d.
Proof. intros Hne. unfold add_day. by rewrite lookup_insert_ne. Qed.

(** One report added to the days merged so far: what becomes of a date. *)
Lemma fold_add_day name rows : ∀ acc d,
  let res := fold_left (add_day name) rows acc in
  let old := default new_day (acc !! d) in
  let new := default new_day (res !! d) in
  agg_views new = agg_views old + sum_Z (map day_views (rows_on d rows))
  ∧ agg_clicks new = agg_clicks old + sum_Z (map day_clicks (rows_on d rows))
  ∧ agg_cost new = add_costs (rows_on d rows) (agg_cost old)
  ∧ (res !! d = None ↔ acc !! d = None ∧ rows_on d rows = [])
  ∧ ((∀ a, acc !! d = Some a →
        agg_ctr a = calculate_ctr (agg_clicks a) (agg_views a)) →
     ∀ a, res !! d = Some a →
        agg_ctr a = calculate_ctr (agg_clicks a) (agg_views a)).
Proof.
  induction rows as [|r rs IH]; intros acc d; cbn [fold_left].
  - cbn zeta. unfold rows_on. rewrite filter_nil. cbn [map].
    split_and!; [unfold sum_Z; simpl; lia | unfold sum_Z; simpl; lia
                 | done | tauto | done].
  - specialize (IH (add_day name acc r) d). cbn zeta in IH |- *.
    destruct IH as (Hv & Hc & Hq & Hn & Hctr).
    rewrite rows_on_cons. destruct (decide (day_date r = d)) as [<-|Hne].
    + assert (Hnew : add_day name acc r !! day_date r
                = Some {| agg_date := strftime_ymd (day_date r);
                          agg_views := agg_views (default new_day (acc !! day_date r))
                                       + day_views r;
                          agg_clicks := agg_clicks (default new_day (acc !! day_date r))
                                        + day_clicks r;
                          agg_cost :=
                            float_add (agg_cost (default new_day (acc !! day_date r)))
                                      (py_float (day_cost r));
                          agg_ctr := calculate_ctr
                            (agg_clicks (default new_day (acc !! day_date r))
                             + day_clicks r)
                            (agg_views (default new_day (acc !! day_date r))
                             + day_views r);
                          views_by_entity :=
                            <[ name := day_views r ]>
                              (views_by_entity (default new_day (acc !! day_date r)));
                          clicks_by_entity :=
                            <[ name := day_clicks r ]>
                              (clicks_by_entity (default new_day (acc !! day_date r)))
                       |})
        by (unfold add_day; by rewrite lookup_insert_eq).
      rewrite Hnew in Hv, Hc, Hq, Hn, Hctr.
      cbn [from_option id agg_views agg_clicks agg_cost] in Hv, Hc, Hq.
      cbn [map]. rewrite !sum_Z_cons.
      split_and!.
      * lia.
      * lia.
      * exact Hq.
      * split; [intros Hnone; apply Hn in Hnone; by destruct Hnone | by intros [_ ?]].
      * intros _. apply Hctr. intros a [= <-]. done.
    + rewrite (add_day_other _ _ _ _ Hne) in Hv, Hc, Hq, Hn, Hctr. done.
Qed.

(** All reports merged: what becomes of a date. *)
Lemma fold_add_report nrs : ∀ acc d,
  let res := fold_left add_report nrs acc in
  let old := default new_day (acc !! d) in
  let new := default new_day (res !! d) in
  agg_views new = agg_views old + sum_Z (map day_views (rows_on d (all_rows nrs)))
  ∧ agg_clicks new
    = agg_clicks old + sum_Z (map day_clicks (rows_on d (all_rows nrs)))
  ∧ agg_cost new = add_costs (rows_on d (all_rows nrs)) (agg_cost old)
  ∧ (res !! d = None ↔ acc !! d = None ∧ rows_on d (all_rows nrs) = [])
  ∧ ((∀ a, acc !! d = Some a →
        agg_ctr a = calculate_ctr (agg_clicks a) (agg_views a)) →
     ∀ a, res !! d = Some a →
        agg_ctr a = calculate_ctr (agg_clicks a) (agg_views a)).
Proof.
  induction nrs as [|[name r] nrs IH]; intros acc d; cbn [fold_left].
  - cbn zeta. unfold all_rows, rows_on. cbn [map concat]. rewrite filter_nil.
    cbn [map].
    split_and!; [unfold sum_Z; simpl; lia | unfold sum_Z; simpl; lia
                 | done | tauto | done].
  - specialize (IH (add_report acc (name, r)) d). cbn zeta in IH |- *.
    destruct IH as (Hv & Hc & Hq & Hn & Hctr).
    pose proof (fold_add_day name (days r) acc d) as Hday. cbn zeta in Hday.
    destruct Hday as (Hv1 & Hc1 & Hq1 & Hn1 & Hctr1).
    change (add_report acc (name, r))
      with (fold_left (add_day name) (days r) acc) in *.
    unfold all_rows. cbn [map concat snd]. fold (all_rows nrs).
    rewrite rows_on_app, !map_app, !sum_Z_app.
    split_and!.
    + rewrite Hv, Hv1. lia.
    + rewrite Hc, Hc1. lia.
    + rewrite Hq, Hq1. unfold add_costs. by rewrite fold_left_app.
    + rewrite Hn, Hn1. split.
      * intros [[? ->] ->]. done.
      * intros [? Happ]. apply app_eq_nil in Happ. tauto.
    + intros Hacc. apply Hctr. by apply Hctr1.
Qed.

(** The merged days: a date is there when one of the reports has a row of
    it, and then holds the sums of those rows, with the CTR of the sums. *)
Lemma aggregate_days_lookup nrs d :
  match aggregate_days nrs !! d with
  | Some a =>
      rows_on d (all_rows nrs) ≠ []
      ∧ agg_views a = sum_Z (map day_views (rows_on d (all_rows nrs)))
      ∧ agg_clicks a = sum_Z (map day_clicks (rows_on d (all_rows nrs)))
      ∧ agg_cost a = add_costs (rows_on d (all_rows nrs)) 0
      ∧ agg_ctr a = calculate_ctr (agg_clicks a) (agg_views a)
  | None => rows_on d (all_rows nrs) = []
  end.
Proof.
  pose proof (fold_add_report nrs ∅ d) as Hf. cbn zeta in Hf.
  fold (aggregate_days nrs) in Hf. rewrite lookup_empty in Hf.
  destruct Hf as (Hv & Hc & Hq & Hn & Hctr).
  destruct (aggregate_days nrs !! d) as [a|] eqn:Ha;
    cbn [from_option id] in Hv, Hc, Hq.
  - split_and!.
    + intros Hnil. assert (Some a = None) by (apply Hn; done). done.
    + rewrite Hv. simpl. lia.
    + rewrite Hc. simpl. lia.
    + exact Hq.
    + by apply Hctr.
  - by apply Hn.
Qed.

End AggregateFacts.

Section ReportFacts.
Context `{ReportCollaborators}.

Lemma elem_of_map {A B} (f : A → B) (l : list A) (y : B) :
  y ∈ map f l ↔ ∃ x, y = f x ∧ x ∈ l.
Proof.
  rewrite list_elem_of_In, in_map_iff. split.
  - intros (x & <- & Hx). exists x. by rewrite list_elem_of_In.
  - intros (x & -> & Hx). exists x. by rewrite <- list_elem_of_In.
Qed.

Lemma rows_on_elem (row : DayRow) (rows : list DayRow) :
  row ∈ rows → rows_on (day_date row) rows ≠ [].
Proof.
  intros Hin Hnil.
  assert (Hrow : row ∈ rows_on (day_date row) rows)
    by (unfold rows_on; by apply list_elem_of_filter).
  rewrite Hnil in Hrow. by apply not_elem_of_nil in Hrow.
Qed.

Lemma all_rows_elem (row : DayRow) name r (nrs : list (string * Report)) :
  (name, r) ∈ nrs → row ∈ days r → row ∈ all_rows nrs.
Proof.
  intros Hnr Hrow. unfold all_rows.
  rewrite list_elem_of_In, in_concat. exists (days r). split.
  - apply in_map_iff. exists (name, r). by rewrite <- list_elem_of_In.
  - by rewrite <- list_elem_of_In.
Qed.

(** A date of which a merged report has a row is among the merged days, with
    the sums of all its rows. *)
Lemma aggregate_days_has (row : DayRow) name r nrs :
  (name, r) ∈ nrs → row ∈ days r →
  ∃ a, aggregate_days nrs !! day_date row = Some a
    ∧ agg_views a = sum_Z (map day_views (rows_on (day_date row) (all_rows nrs)))
    ∧ agg_clicks a = sum_Z (map day_clicks (rows_on (day_date row) (all_rows nrs)))
    ∧ agg_cost a = add_costs (rows_on (day_date row) (all_rows nrs)) 0
    ∧ agg_ctr a = calculate_ctr (agg_clicks a) (agg_views a).
Proof.
  intros Hnr Hrow.
  pose proof (aggregate_days_lookup nrs (day_date row)) as Hl.
  destruct (aggregate_days nrs !! day_date row) as [a|].
  - exists a. by destruct Hl as (_ & ? & ? & ? & ?).
  - exfalso. eapply rows_on_elem; [| exact Hl].
    by eapply all_rows_elem.
Qed.

(** Looking a key up in a context built by assignments. *)
Ltac ctx_lookup :=
  cbv zeta; unfold BaseReportView.to_dict;
  repeat (rewrite lookup_insert_ne by done);
  first [ by rewrite lookup_insert_eq | by rewrite lookup_empty ].

(** The keys of the two contexts. *)
Lemma publisher_context_dom db request :
  dom (AllPublisherReportView.get_context_data db request)
  = publisher_context_keys.
Proof.
  unfold AllPublisherReportView.get_context_data, BaseReportView.to_dict,
    publisher_context_keys, base_keys.
  cbv zeta. rewrite !dom_insert_L, dom_empty_L. set_solver.
Qed.

Lemma advertiser_context_dom db request :
  dom (AllAdvertiserReportView.get_context_data db request)
  = advertiser_context_keys.
Proof.
  unfold AllAdvertiserReportView.get_context_data, BaseReportView.to_dict,
    advertiser_context_keys, base_keys.
  cbv zeta. rewrite !dom_insert_L, dom_empty_L. set_solver.
Qed.

(** C7.  A [start_date] or [end_date] parameter that does not parse is
    ignored: the start is then today minus 30 days and the end is [None],
    and the view returns its context all the same.  When both parse and the
    end is before the start, the end is dropped. *)
Theorem unparsable_dates_are_ignored request :
  let c := BaseReportView.context_data request in
  (∀ s, GET request !! "start_date" = Some s → strptime_ymd s = None →
        BaseReportView.start_date c = get_ad_day - 30)
  ∧ (∀ s, GET request !! "end_date" = Some s → strptime_ymd s = None →
          BaseReportView.end_date c = None)
  ∧ (∀ s e ds de,
       GET request !! "start_date" = Some s → strptime_ymd s = Some ds →
       GET request !! "end_date" = Some e → strptime_ymd e = Some de →
       de < ds →
       BaseReportView.start_date c = ds ∧ BaseReportView.end_date c = None)
  ∧ BaseReportView.get_context_data request !! "start_date"
    = Some (VDate (BaseReportView.start_date c))
  ∧ BaseReportView.get_context_data request !! "end_date"
    = Some (VOptDate (BaseReportView.end_date c)).
Proof.
  intros c. subst c.
  unfold BaseReportView.context_data, BaseReportView.get_start_date,
    BaseReportView.get_end_date, BaseReportView._parse_date_string,
    BaseReportView.DEFAULT_REPORT_DAYS.
  split_and!.
  - intros s Hs Hp. cbn. by rewrite Hs, Hp.
  - intros s Hs Hp. cbn. by rewrite Hs, Hp.
  - intros s e ds de Hs Hps He Hpe Hlt. cbn. rewrite Hs, Hps, He, Hpe.
    split; [done |]. by rewrite (proj2 (Z.ltb_lt de ds) Hlt).
  - unfold BaseReportView.get_context_data. ctx_lookup.
  - unfold BaseReportView.get_context_data. ctx_lookup.
Qed.

(** C9.  In both multi-entity reports, an entity whose report has no views
    in total is left out of the list of entities that the view returns.  A
    date is still among the merged days, with the sums over the entities
    kept, when another entity has views on it.  The grand totals (views,
    clicks, cost, and the CTR and ECPM derived from them) are sums over the
    entities kept. *)
Theorem entities_without_views_are_left_out db request :
  let c := BaseReportView.context_data request in
  let sd := BaseReportView.start_date c in
  let ed := BaseReportView.end_date c in
  (let kept := AllPublisherReportView.publishers_and_reports db c in
   let named := map (λ pr, (publisher_name pr.1, pr.2)) kept in
   let ctx := AllPublisherReportView.get_context_data db request in
   let views := sum_Z (map (λ pr, total_views (total pr.2)) kept) in
   let clicks := sum_Z (map (λ pr, total_clicks (total pr.2)) kept) in
   let cost := sum_Q (map (λ pr, total_cost (total pr.2)) kept) in
   ctx !! "publishers" = Some (VPublishers (map fst kept))
   ∧ ctx !! "publishers_and_reports" = Some (VPublisherReports kept)
   ∧ (∀ p r, (p, r) ∈ kept ↔
        p ∈ AllPublisherReportView.publishers_selected db c
        ∧ r = publisher_daily_reports db p sd ed
        ∧ 0 < total_views (total r))
   ∧ (∀ q row,
        q ∈ AllPublisherReportView.publishers_selected db c →
        row ∈ days (publisher_daily_reports db q sd ed) →
        0 < day_views row →
        day_views row ≤ total_views (total (publisher_daily_reports db q sd ed)) →
        ∃ a, AllPublisherReportView.days_by_date db c !! day_date row = Some a
          ∧ agg_views a
            = sum_Z (map day_views (rows_on (day_date row) (all_rows named)))
          ∧ agg_clicks a
            = sum_Z (map day_clicks (rows_on (day_date row) (all_rows named))))
   ∧ ctx !! "total_views" = Some (VInt views)
   ∧ ctx !! "total_clicks" = Some (VInt clicks)
   ∧ ctx !! "total_cost" = Some (VNum cost)
   ∧ ctx !! "total_ctr" = Some (VNum (calculate_ctr clicks views))
   ∧ ctx !! "total_ecpm" = Some (VNum (calculate_ecpm cost views)))
  ∧
  (let kept := AllAdvertiserReportView.advertisers_and_reports db c in
   let named := map (λ ar, (advertiser_name ar.1, ar.2)) kept in
   let ctx := AllAdvertiserReportView.get_context_data db request in
   let views := sum_Z (map (λ ar, total_views (total ar.2)) kept) in
   let clicks := sum_Z (map (λ ar, total_clicks (total ar.2)) kept) in
   let cost := sum_Q (map (λ ar, total_cost (total ar.2)) kept) in
   ctx !! "advertisers" = Some (VAdvertisers (map fst kept))
   ∧ ctx !! "advertisers_and_reports" = Some (VAdvertiserReports kept)
   ∧ (∀ a r, (a, r) ∈ kept ↔
        a ∈ AllAdvertiserReportView.advertisers_selected db c
        ∧ r = advertiser_daily_reports db a sd ed
        ∧ 0 < total_views (total r))
   ∧ (∀ q row,
        q ∈ AllAdvertiserReportView.advertisers_selected db c →
        row ∈ days (advertiser_daily_reports db q sd ed) →
        0 < day_views row →
        day_views row ≤ total_views (total (advertiser_daily_reports db q sd ed)) →
        ∃ a, AllAdvertiserReportView.days_by_date db c !! day_date row = Some a
          ∧ agg_views a
            = sum_Z (map day_views (rows_on (day_date row) (all_rows named)))
          ∧ agg_clicks a
            = sum_Z (map day_clicks (rows_on (day_date row) (all_rows named))))
   ∧ ctx !! "total_views" = Some (VInt views)
   ∧ ctx !! "total_clicks" = Some (VInt clicks)
   ∧ ctx !! "total_cost" = Some (VNum cost)
   ∧ ctx !! "total_ctr" = Some (VNum (calculate_ctr clicks views))
   ∧ ctx !! "total_ecpm" = Some (VNum (calculate_ecpm cost views))).
Proof.
  intros c sd ed. split.
  - intros kept named ctx views clicks cost.
    assert (Hkept : ∀ p r, (p, r) ∈ kept ↔
              p ∈ AllPublisherReportView.publishers_selected db c
              ∧ r = publisher_daily_reports db p sd ed
              ∧ 0 < total_views (total r)).
    { intros p r. subst kept.
      unfold AllPublisherReportView.publishers_and_reports.
      rewrite list_elem_of_filter, elem_of_map. cbn [snd]. split.
      - intros (Hpos & p' & [= -> ->] & Hp'). done.
      - intros (Hp & -> & Hpos). split; [done |]. by exists p. }
    subst ctx. unfold AllPublisherReportView.get_context_data.
    fold c. fold kept. fold views clicks cost.
    split_and!; try ctx_lookup; try done.
    intros q row Hq Hrow Hpos Hle.
    assert (Hin : (q, publisher_daily_reports db q sd ed) ∈ kept)
      by (apply Hkept; split_and!; [done | done | lia]).
    assert (Hnamed : (publisher_name q, publisher_daily_reports db q sd ed) ∈ named).
    { subst named. apply elem_of_map. by eexists (_, _). }
    destruct (aggregate_days_has row _ _ _ Hnamed Hrow)
      as (a & Ha & Hv & Hc & _).
    exists a. done.
  - intros kept named ctx views clicks cost.
    assert (Hkept : ∀ a r, (a, r) ∈ kept ↔
              a ∈ AllAdvertiserReportView.advertisers_selected db c
              ∧ r = advertiser_daily_reports db a sd ed
              ∧ 0 < total_views (total r)).
    { intros a r. subst kept.
      unfold AllAdvertiserReportView.advertisers_and_reports.
      rewrite list_elem_of_filter, elem_of_map. cbn [snd]. split.
      - intros (Hpos & a' & [= -> ->] & Ha'). done.
      - intros (Ha & -> & Hpos). split; [done |]. by exists a. }
    subst ctx. unfold AllAdvertiserReportView.get_context_data.
    fold c. fold kept. fold views clicks cost.
    split_and!; try ctx_lookup; try done.
    intros q row Hq Hrow Hpos Hle.
    assert (Hin : (q, advertiser_daily_reports db q sd ed) ∈ kept)
      by (apply Hkept; split_and!; [done | done | lia]).
    assert (Hnamed : (advertiser_name q, advertiser_daily_reports db q sd ed) ∈ named).
    { subst named. apply elem_of_map. by eexists (_, _). }
    destruct (aggregate_days_has row _ _ _ Hnamed Hrow)
      as (a & Ha & Hv & Hc & _).
    exists a. done.
Qed.

(** The context of the publishers report, but for the parameter it echoes,
    is a function of the dates and of the publishers selected. *)
Lemma publisher_context_of_selection db request1 request2 :
  let c1 := BaseReportView.context_data request1 in
  let c2 := BaseReportView.context_data request2 in
  BaseReportView.start_date c1 = BaseReportView.start_date c2 →
  BaseReportView.end_date c1 = BaseReportView.end_date c2 →
  AllPublisherReportView.publishers_selected db c1
    = AllPublisherReportView.publishers_selected db c2 →
  delete "campaign_type" (AllPublisherReportView.get_context_data db request1)
  = delete "campaign_type" (AllPublisherReportView.get_context_data db request2).
Proof.
  intros c1 c2 Hsd Hed Hsel.
  assert (Hkept : AllPublisherReportView.publishers_and_reports db c1
                  = AllPublisherReportView.publishers_and_reports db c2).
  { unfold AllPublisherReportView.publishers_and_reports.
    by rewrite Hsel, Hsd, Hed. }
  unfold AllPublisherReportView.get_context_data, BaseReportView.to_dict.
  cbv zeta. fold c1 c2. rewrite Hkept, Hsd, Hed.
  repeat (rewrite (delete_insert_ne _ "campaign_type") by done).
  by rewrite !delete_insert_eq.
Qed.

(** C10.  In the report of all publishers the [campaign_type] parameter
    decides which publishers are selected and nothing else: a publisher is
    selected when it has an impression of that campaign type in the range of
    dates; the report of a selected publisher is its daily report for the
    range, which is not told the campaign type, and so are the totals; two
    requests that select the same publishers over the same dates get the
    same context, but for the parameter echoed.  A value that is not in
    [CAMPAIGN_TYPES] filters nothing: the context is that of the request
    without the parameter, but for the parameter echoed. *)
Theorem campaign_type_selects_publishers_only db request :
  let c := BaseReportView.context_data request in
  let ct := BaseReportView.ctx_campaign_type c in
  let sd := BaseReportView.start_date c in
  let ed := BaseReportView.end_date c in
  (ct ≠ "" → str_in ct CAMPAIGN_TYPES = true →
   ∀ p, p ∈ AllPublisherReportView.publishers_selected db c ↔
        p ∈ Publisher_objects db
        ∧ ∃ i, i ∈ AdImpression_objects db
            ∧ sd ≤ imp_date i
            ∧ (∀ e, ed = Some e → imp_date i ≤ e)
            ∧ AllPublisherReportView.has_campaign_type db ct i = true
            ∧ imp_publisher i = Some (publisher_pk p))
  ∧ (∀ p r, (p, r) ∈ AllPublisherReportView.publishers_and_reports db c →
            r = publisher_daily_reports db p sd ed)
  ∧ (∀ request',
       let c' := BaseReportView.context_data request' in
       BaseReportView.start_date c' = sd →
       BaseReportView.end_date c' = ed →
       AllPublisherReportView.publishers_selected db c'
         = AllPublisherReportView.publishers_selected db c →
       delete "campaign_type" (AllPublisherReportView.get_context_data db request')
       = delete "campaign_type" (AllPublisherReportView.get_context_data db request))
  ∧ (str_in ct CAMPAIGN_TYPES = false →
     AllPublisherReportView.publishers_selected db c
       = AllPublisherReportView.publishers_selected db
           (BaseReportView.context_data (without_campaign_type request))
     ∧ delete "campaign_type" (AllPublisherReportView.get_context_data db request)
       = delete "campaign_type"
           (AllPublisherReportView.get_context_data db
              (without_campaign_type request))).
Proof.
  intros c ct sd ed.
  assert (Hwithout :
    BaseReportView.context_data (without_campaign_type request)
    = {| BaseReportView.start_date := sd; BaseReportView.end_date := ed;
         BaseReportView.ctx_campaign_type := "" |}).
  { subst sd ed c.
    unfold BaseReportView.context_data, BaseReportView.get_start_date,
      BaseReportView.get_end_date, without_campaign_type.
    cbn [GET BaseReportView.start_date BaseReportView.end_date].
    rewrite lookup_delete_eq.
    by rewrite !(lookup_delete_ne (GET request) "campaign_type") by done. }
  split_and!.
  - intros Hne Hin p.
    unfold AllPublisherReportView.publishers_selected,
      AllPublisherReportView.impressions_selected.
    fold ct sd ed. rewrite Hin.
    replace (negb (String.eqb ct "")) with true
      by (symmetry; apply negb_true_iff; by apply String.eqb_neq).
    cbn [andb]. rewrite list_elem_of_filter, elem_of_map. split.
    + intros [(i & Hpub & Hi) Hp]. split; [done |]. exists i.
      apply list_elem_of_filter in Hi as [Hct Hi].
      assert (Hrange : sd ≤ imp_date i ∧ (∀ e, ed = Some e → imp_date i ≤ e)
                       ∧ i ∈ AdImpression_objects db).
      { destruct ed as [e|].
        - apply list_elem_of_filter in Hi as [He Hi].
          apply list_elem_of_filter in Hi as [Hs Hi].
          split_and!; [done | by intros ? [= <-] | done].
        - apply list_elem_of_filter in Hi as [Hs Hi].
          split_and!; [done | done | done]. }
      destruct Hrange as (Hs & He & Hi').
      split_and!; try done. by destruct (AllPublisherReportView.has_campaign_type _ _ _).
    + intros (Hp & i & Hi & Hs & He & Hct & Hpub). split; [| done].
      exists i. split; [done |].
      apply list_elem_of_filter. split; [by rewrite Hct |].
      destruct ed as [e|].
      * apply list_elem_of_filter. split; [by apply He |].
        by apply list_elem_of_filter.
      * by apply list_elem_of_filter.
  - intros p r. unfold AllPublisherReportView.publishers_and_reports.
    rewrite list_elem_of_filter, elem_of_map.
    by intros (_ & p' & [= -> ->] & _).
  - intros request' c' Hsd Hed Hsel.
    by apply publisher_context_of_selection.
  - intros Hout.
    assert (Hsel : AllPublisherReportView.publishers_selected db c
       = AllPublisherReportView.publishers_selected db
           (BaseReportView.context_data (without_campaign_type request))).
    { rewrite Hwithout.
      unfold AllPublisherReportView.publishers_selected,
        AllPublisherReportView.impressions_selected.
      fold ct sd ed.
      cbn [BaseReportView.start_date BaseReportView.end_date
           BaseReportView.ctx_campaign_type].
      rewrite Hout. by rewrite andb_false_r. }
    split; [done |].
    apply publisher_context_of_selection; [| | done].
    + by rewrite Hwithout.
    + by rewrite Hwithout.
Qed.

End ReportFacts.

(** C8.  Two publishers, each with 10 views, 1 click and a cost of 1.00 on
    2020-02-10: the loop of [get_context_data] merges the two rows into one
    day with 20 views, 2 clicks, a cost of 2.00 and a CTR of 10, computed
    from the sums.  The merged days stay in the local variable [days]: the
    context that the view returns has no key for them, in the report of all
    publishers and in the report of all advertisers. *)
Theorem merged_days_missing_from_context :
  let E := SampleReports.collaborators in
  let request := SampleReports.request ∅ in
  let c := BaseReportView.context_data (H:=E) request in
  let kept := AllPublisherReportView.publishers_and_reports (H:=E) SampleReports.db c in
  let day := {| day_date := 18302; day_views := 10; day_clicks := 1; day_cost := 1 |} in
  map (λ pr, (publisher_name pr.1, days pr.2)) (take 2 kept)
    = [ ("alpha", [day]); ("beta", [day]) ]
  ∧ (∃ a, AllPublisherReportView.days_by_date (H:=E) SampleReports.db c !! 18302
            = Some a
          ∧ agg_date a = "2020-02-10"
          ∧ agg_views a = 20
          ∧ agg_clicks a = 2
          ∧ (agg_cost a == 2)%Q
          ∧ (agg_ctr a == 10)%Q)
  ∧ dom (AllPublisherReportView.get_context_data (H:=E) SampleReports.db request)
    = publisher_context_keys
  ∧ AllPublisherReportView.get_context_data (H:=E) SampleReports.db request
      !! "days" = None
  ∧ dom (AllAdvertiserReportView.get_context_data (H:=E) SampleReports.db request)
    = advertiser_context_keys
  ∧ AllAdvertiserReportView.get_context_data (H:=E) SampleReports.db request
      !! "days" = None.
Proof.
  intros E request c kept day.
  assert (Hnone : ∀ (m : gmap string Value) keys,
            dom m = keys → "days" ∉ keys → m !! "days" = None).
  { intros m keys <- Hkeys. by apply not_elem_of_dom. }
  split_and!.
  - vm_compute. reflexivity.
  - eexists. split; [vm_compute; reflexivity |].
    split_and!; vm_compute; done.
  - apply publisher_context_dom.
  - apply (Hnone _ _ (publisher_context_dom (H:=E) SampleReports.db request)).
    vm_compute. intros Hin. discriminate Hin.
  - apply advertiser_context_dom.
  - apply (Hnone _ _ (advertiser_context_dom (H:=E) SampleReports.db request)).
    vm_compute. intros Hin. discriminate Hin.
Qed.

(** The report views on the sample data. *)

Example unparsable_dates_example :
  let E := SampleReports.collaborators in
  BaseReportView.context_data (H:=E)
    (SampleReports.request
       (<[ "start_date" := "01/02/2020" ]> {[ "end_date" := "soon" ]}))
  = {| BaseReportView.start_date := 18292; BaseReportView.end_date := None;
       BaseReportView.ctx_campaign_type := "" |}
  ∧ BaseReportView.context_data (H:=E)
      (SampleReports.request
         (<[ "start_date" := "2020-02-10" ]> {[ "end_date" := "2020-01-15" ]}))
    = {| BaseReportView.start_date := 18302; BaseReportView.end_date := None;
         BaseReportView.ctx_campaign_type := "" |}
  ∧ BaseReportView.context_data (H:=E)
      (SampleReports.request
         (<[ "start_date" := "2020-01-15" ]> {[ "end_date" := "2020-02-10" ]}))
    = {| BaseReportView.start_date := 18276; BaseReportView.end_date := Some 18302;
         BaseReportView.ctx_campaign_type := "" |}.
Proof. intros E. split_and!; vm_compute; reflexivity. Qed.

(** With [campaign_type=house], gamma and delta are selected for their house
    impressions; gamma's report still counts its 4 views of a paid campaign
    with its 6 views of a house campaign, and delta, without views, is left
    out of the list. *)
Example campaign_type_example :
  let E := SampleReports.collaborators in
  let c := BaseReportView.context_data (H:=E)
             (SampleReports.request {[ "campaign_type" := "house" ]}) in
  AllPublisherReportView.publishers_selected (H:=E) SampleReports.db c
    = [ SampleReports.gamma; SampleReports.delta ]
  ∧ map (λ pr, (publisher_name pr.1, total_views (total pr.2)))
        (AllPublisherReportView.publishers_and_reports (H:=E) SampleReports.db c)
    = [ ("gamma", 10) ]
  ∧ AllPublisherReportView.get_context_data (H:=E) SampleReports.db
      (SampleReports.request {[ "campaign_type" := "house" ]}) !! "total_views"
    = Some (VInt 10).
Proof. intros E c. split_and!; vm_compute; reflexivity. Qed.

(** * More on the proxy views *)

Section ProxyViewCalls.
Context `{Collaborators} {U : UrlLibrary}.

Ltac run :=
  unfold outcome_of, world_of, trace_of, mbind, M_bind, mret, M_ret,
    log, emit, raise, get_geolocation_m, is_valid_nonce, invalidate_nonce,
    track_impression_m, is_click_ratelimited_m, get_publisher_m,
    get_object_or_404, analytics_event, impression_type_eqb, call; simpl.

(** One run of the filter, call by call: the geolocation and the nonce
    check, the rate limiter when the request is a click that passes the
    first eight rules, and one log line when a rule matches. *)
Lemma ignore_tracking_reason_calls self request ad nonce publisher w :
  let rules := filter_rules self request ad nonce publisher w in
  let consulted :=
    forallb (λ r, negb r.1) (take 8 rules)
    && bool_decide (impression_type_of self = CLICKS) in
  let res := ignore_tracking_reason self request ad nonce publisher w in
  world_of res
    = (if consulted
       then with_limiter w (is_click_ratelimited (limiter w) request).2
       else w)
  ∧ ∃ logs,
      trace_of res
      = [ Geolocated (get_client_ip request);
          NonceChecked (ad_pk ad) (impression_type_of self) nonce ]
        ++ (if consulted then [RateLimitChecked (get_client_ip request)] else [])
        ++ logs
      ∧ match first_match rules with
        | None => logs = []
        | Some r =>
            ∃ msg,
              logs = [ Logged
                         (if bool_decide (r = "Invalid targeting impression"
                                          ∨ r = "Ratelimited impression")
                          then logging_WARNING else logging_DEBUG)
                         msg ]
        end.
Proof.
  unfold ignore_tracking_reason, filter_rules. run.
  assert (Hstop : ∀ (lvl : Z) (msg : string),
    w = w ∧ ∃ logs,
      [ Geolocated (get_client_ip request);
        NonceChecked (ad_pk ad) (impression_type_of self) nonce;
        Logged lvl msg ]
      = [ Geolocated (get_client_ip request);
          NonceChecked (ad_pk ad) (impression_type_of self) nonce ]
        ++ [] ++ logs
      ∧ ∃ msg', logs = [Logged lvl msg'])
    by (intros; split; [done | eexists; split; [reflexivity | by eexists]]).
  destruct (nonce_is_valid _ _ _ _ _); simpl; [| apply Hstop].
  destruct (is_bot _); simpl; [apply Hstop |].
  destruct (str_in _ _); simpl; [apply Hstop |].
  destruct (String.eqb (os_family _) _ && String.eqb (browser_family _) _);
    simpl; [apply Hstop |].
  destruct (is_staff _); simpl; [apply Hstop |].
  destruct (is_blacklisted_user_agent _); simpl; [apply Hstop |].
  destruct publisher as [p|]; simpl; [| apply Hstop].
  destruct (show_to_geo _ _); simpl; [| apply Hstop].
  destruct self; simpl.
  - split; [done | by exists []].
  - split; [done | by exists []].
  - destruct (is_click_ratelimited _ _) as [[] l]; simpl.
    + split; [done | eexists; split; [reflexivity | by eexists]].
    + split; [done | by exists []].
Qed.

Lemma filter_is_rate_check_logs (logs : list Event) :
  Forall (λ e, is_log e = true) logs → List.filter is_rate_check logs = [].
Proof.
  induction 1 as [|e logs He _ IH]; [done |].
  destruct e; simpl in *; try done.
Qed.

(** X1.  When the filter accepts a request, [get] bills it once: after the
    calls of the filter it logs the success message of the class, consumes
    the nonce and records one impression, in this order, for the publisher
    of the nonce and with the referrer of the request ([None] when the
    request has no [HTTP_REFERER] header). *)
Theorem accepted_request_is_billed_once self request id nonce ad w :
  advertisements w !! id = Some ad →
  first_match (filter_rules self request ad nonce
                 (get_publisher (nonces w) ad nonce) w) = None →
  let publisher := get_publisher (nonces w) ad nonce in
  let ty := impression_type_of self in
  let referrer := META request !! "HTTP_REFERER" in
  let res := get self request id nonce w in
  List.filter is_billing_event (trace_of res)
    = [ NonceInvalidated (ad_pk ad) ty nonce;
        ImpressionTracked (ad_pk ad) ty publisher referrer ]
  ∧ (∃ t, trace_of res
          = t ++ [ Logged logging_DEBUG (success_message self);
                   NonceInvalidated (ad_pk ad) ty nonce;
                   ImpressionTracked (ad_pk ad) ty publisher referrer ])
  ∧ counters (world_of res)
    = track_impression (counters w) ad request ty publisher referrer.
Proof.
  intros Had Hnone publisher ty referrer res.
  assert (Hacc : outcome_of (ignore_tracking_reason self request ad nonce
                               publisher w) = Returned None)
    by (rewrite ignore_tracking_reason_outcome; by f_equal).
  destruct (get_accepted self request id nonce ad w Had Hacc)
    as (_ & Hc & t & Ht & Hquiet).
  fold res publisher in Ht, Hc. split_and!.
  - rewrite Ht, List.filter_app. unfold billing_trace. cbn [List.filter is_billing_event].
    replace (List.filter is_billing_event t) with (@nil Event); [done |].
    symmetry. clear Ht. induction Hquiet as [|e t [He _] _ IH]; [done |].
    cbn [List.filter]. by rewrite He.
  - exists t. exact Ht.
  - exact Hc.
Qed.

(** X2.  [get] asks the rate limiter only for a click that passes the first
    eight rules of the filter, and then once.  A view, and a click that one
    of these rules rejects, leaves the rate limiter as it was.  [get] never
    changes the advertisements. *)
Theorem rate_limiter_asked_for_passing_clicks_only self request id nonce ad w :
  advertisements w !! id = Some ad →
  let rules :=
    filter_rules self request ad nonce (get_publisher (nonces w) ad nonce) w in
  let consulted :=
    forallb (λ r, negb r.1) (take 8 rules)
    && bool_decide (impression_type_of self = CLICKS) in
  let res := get self request id nonce w in
  limiter (world_of res)
    = (if consulted then (is_click_ratelimited (limiter w) request).2
       else limiter w)
  ∧ List.filter is_rate_check (trace_of res)
    = (if consulted then [RateLimitChecked (get_client_ip request)] else [])
  ∧ advertisements (world_of res) = advertisements w.
Proof.
  intros Had rules consulted res.
  pose proof (ignore_tracking_reason_calls self request ad nonce
                (get_publisher (nonces w) ad nonce) w) as Hcalls.
  cbv zeta in Hcalls. fold rules in Hcalls. fold consulted in Hcalls.
  destruct Hcalls as (Hw & logs & Ht & Hlogs).
  assert (Hquiet : List.filter is_rate_check logs = []).
  { apply filter_is_rate_check_logs.
    destruct (first_match rules); [destruct Hlogs as [msg ->] | subst logs];
      repeat constructor. }
  subst res. rewrite (get_run _ _ _ _ _ _ Had). fold rules.
  unfold world_of, trace_of in *. cbn [fst snd].
  rewrite Ht, Hw.
  assert (Hbill : ∀ w0, limiter (billed_world self request ad nonce
                                   (get_publisher (nonces w) ad nonce) w0)
                        = limiter w0
                        ∧ advertisements (billed_world self request ad nonce
                            (get_publisher (nonces w) ad nonce) w0)
                          = advertisements w0) by done.
  assert (Htail : List.filter is_rate_check
            match first_match rules with
            | Some _ => []
            | None => billing_trace self request ad nonce
                        (get_publisher (nonces w) ad nonce)
            end = []) by (by destruct (first_match rules)).
  cbn [List.filter is_rate_check app].
  rewrite !List.filter_app, Hquiet, Htail, !app_nil_r.
  destruct (first_match rules) as [r|];
    [| destruct (Hbill (if consulted
                        then with_limiter w (is_click_ratelimited (limiter w) request).2
                        else w)) as [-> ->]];
    destruct consulted; done.
Qed.

(** X3.  [get] writes one log line for a request whose advertisement
    exists: for a rejection a line at the level WARNING when the reason is
    the geo-targeting or the rate limit, and at the level DEBUG otherwise;
    for a billed impression the success message of the class, at the level
    DEBUG. *)
Theorem one_log_line_per_request self request id nonce ad w :
  advertisements w !! id = Some ad →
  let reason :=
    first_match (filter_rules self request ad nonce
                   (get_publisher (nonces w) ad nonce) w) in
  let lines := List.filter is_log (trace_of (get self request id nonce w)) in
  match reason with
  | Some r =>
      ∃ msg,
        lines = [ Logged
                    (if bool_decide (r = "Invalid targeting impression"
                                     ∨ r = "Ratelimited impression")
                     then logging_WARNING else logging_DEBUG)
                    msg ]
  | None => lines = [ Logged logging_DEBUG (success_message self) ]
  end.
Proof.
  intros Had reason lines. subst lines.
  pose proof (ignore_tracking_reason_calls self request ad nonce
                (get_publisher (nonces w) ad nonce) w) as Hcalls.
  cbv zeta in Hcalls. fold reason in Hcalls.
  destruct Hcalls as (_ & logs & Ht & Hlogs).
  rewrite (get_run _ _ _ _ _ _ Had). fold reason.
  unfold trace_of in *. cbn [snd]. rewrite Ht.
  cbn [List.filter is_log app]. rewrite !List.filter_app.
  assert (Hrate : ∀ b : bool,
            List.filter is_log
              (if b then [RateLimitChecked (get_client_ip request)] else []) = [])
    by (by intros []).
  rewrite Hrate. cbn [app].
  destruct reason as [r|].
  - destruct Hlogs as [msg ->]. exists msg. done.
  - subst logs. done.
Qed.

(** X4.  The base class has no response of its own: for an advertisement
    that exists its [get] raises [NotImplementedError], after it has billed
    the impression when the filter accepts the request. *)
Theorem base_class_bills_then_raises request id nonce ad w :
  advertisements w !! id = Some ad →
  let publisher := get_publisher (nonces w) ad nonce in
  let res := get BaseProxyView request id nonce w in
  outcome_of res = Raised NotImplementedError
  ∧ (first_match (filter_rules BaseProxyView request ad nonce publisher w) = None →
     counters (world_of res)
       = track_impression (counters w) ad request VIEWS publisher
           (META request !! "HTTP_REFERER")
     ∧ existsb is_billing_event (trace_of res) = true).
Proof.
  intros Had publisher res. subst res.
  rewrite (get_run _ _ _ _ _ _ Had). fold publisher.
  unfold outcome_of, world_of, trace_of. cbn [fst snd plain_response].
  split; [done |]. intros ->.
  pose proof (ignore_tracking_reason_run BaseProxyView request ad nonce
                publisher w) as (_ & [l Hl] & _).
  unfold world_of in Hl. rewrite Hl. split; [done |].
  cbn [existsb is_billing_event]. rewrite existsb_app.
  unfold billing_trace. cbn [existsb is_billing_event].
  by rewrite !orb_true_r.
Qed.

(** [int(x)] cuts the fraction of a value that is not negative. *)
Lemma py_int_bounds (q : Q) :
  (0 <= q)%Q →
  (inject_Z (py_int q) <= q)%Q ∧ (q < inject_Z (py_int q + 1))%Q.
Proof.
  intros Hq.
  assert (Hfloor : py_int q = Qfloor q).
  { destruct q as [n d]. unfold py_int, Qfloor. cbn [Qnum Qden].
    apply Z.quot_div_nonneg; [| done].
    unfold Qle in Hq. cbn in Hq. lia. }
  rewrite Hfloor. split; [apply Qfloor_le | apply Qlt_floor].
Qed.

(** X5.  [send_to_analytics] changes nothing in the world.  In the click
    proxy it sends one event of the category "Advertisement" with the message
    as its action and the slug of the advertisement as its label; its value
    is the cost per click in cents, with the fraction of a cent cut off.  In
    the base class and in the view proxy it sends nothing. *)
Theorem send_to_analytics_one_click_event self request ad message w :
  let res := send_to_analytics self request ad message w in
  outcome_of res = Returned tt
  ∧ world_of res = w
  ∧ match self with
    | AdClickProxyView =>
        ∃ value,
          trace_of res
          = [ AnalyticsEvent "Advertisement" message (slug ad) value
                (get_client_user_agent request) (get_client_ip request) ]
          ∧ ((0 <= cpc (flight ad))%Q →
             (inject_Z value <= cpc (flight ad) * 100)%Q
             ∧ (cpc (flight ad) * 100 < inject_Z (value + 1))%Q)
    | _ => trace_of res = []
    end.
Proof.
  intros res. subst res. destruct self; cbn [send_to_analytics]; run;
    split_and!; try done.
  eexists. split; [reflexivity |]. intros Hcpc. apply py_int_bounds.
  apply Qmult_le_0_compat; [done | by unfold Qle].
Qed.

End ProxyViewCalls.

Section CallsOnTheSample.
#[local] Existing Instance Sample.urls.

(** The theorems of this part with a premise, on the sample deployment. *)

Lemma accepted_request_is_billed_once_witness :
  let E := Sample.collaborators false false in
  let w := Sample.world false false in
  let res := get (H:=E) AdViewProxyView Sample.visitor 1 "n-view" w in
  advertisements w !! 1 = Some Sample.the_ad
  ∧ List.filter is_billing_event (trace_of res)
    = [ NonceInvalidated 1 VIEWS "n-view";
        ImpressionTracked 1 VIEWS (Some Sample.the_publisher) None ].
Proof.
  intros E w res.
  assert (Had : advertisements w !! 1 = Some Sample.the_ad)
    by (vm_compute; reflexivity).
  assert (Hnone : first_match
                    (filter_rules (H:=E) AdViewProxyView Sample.visitor
                       Sample.the_ad "n-view"
                       (@get_publisher E (nonces w) Sample.the_ad "n-view") w)
                  = None) by (vm_compute; reflexivity).
  destruct (accepted_request_is_billed_once (H:=E) AdViewProxyView
              Sample.visitor 1 "n-view" Sample.the_ad w Had Hnone)
    as (Hbill & _ & _).
  exact (conj Had Hbill).
Defined.

Lemma rate_limiter_asked_for_passing_clicks_only_witness :
  let E := Sample.collaborators false false in
  let w := Sample.world false false in
  advertisements w !! 1 = Some Sample.the_ad
  ∧ limiter (world_of (get (H:=E) AdClickProxyView Sample.bot 1 "n-click" w))
    = limiter w
  ∧ limiter (world_of (get (H:=E) AdClickProxyView Sample.visitor 1 "n-click" w))
    = {[ "203.0.113.5" := 1 ]}.
Proof.
  intros E w.
  assert (Had : advertisements w !! 1 = Some Sample.the_ad)
    by (vm_compute; reflexivity).
  destruct (rate_limiter_asked_for_passing_clicks_only (H:=E) AdClickProxyView
              Sample.bot 1 "n-click" Sample.the_ad w Had) as (Hbot & _ & _).
  destruct (rate_limiter_asked_for_passing_clicks_only (H:=E) AdClickProxyView
              Sample.visitor 1 "n-click" Sample.the_ad w Had) as (Hvis & _ & _).
  split; [exact Had |]. split.
  - rewrite Hbot. vm_compute. reflexivity.
  - rewrite Hvis. vm_compute. reflexivity.
Defined.

Lemma one_log_line_per_request_witness :
  let E := Sample.collaborators false false in
  let w := Sample.world false false in
  advertisements w !! 1 = Some Sample.the_ad
  ∧ List.filter is_log
      (trace_of (get (H:=E) AdClickProxyView Sample.visitor 1 "n-click" w))
    = [ Logged logging_DEBUG "Billed click" ].
Proof.
  intros E w.
  assert (Had : advertisements w !! 1 = Some Sample.the_ad)
    by (vm_compute; reflexivity).
  pose proof (one_log_line_per_request (H:=E) AdClickProxyView
                Sample.visitor 1 "n-click" Sample.the_ad w Had) as Hline.
  split; [exact Had |]. exact Hline.
Defined.

Lemma base_class_bills_then_raises_witness :
  let E := Sample.collaborators false false in
  let w := Sample.world false false in
  advertisements w !! 1 = Some Sample.the_ad
  ∧ outcome_of (get (H:=E) BaseProxyView Sample.visitor 1 "n-view" w)
    = Raised NotImplementedError
  ∧ counters (world_of (get (H:=E) BaseProxyView Sample.visitor 1 "n-view" w))
    = [(1, VIEWS)].
Proof.
  intros E w.
  assert (Had : advertisements w !! 1 = Some Sample.the_ad)
    by (vm_compute; reflexivity).
  destruct (base_class_bills_then_raises (H:=E) Sample.visitor 1 "n-view"
              Sample.the_ad w Had) as (Hraise & Hbill).
  destruct Hbill as [Hc _]; [vm_compute; reflexivity |].
  split; [exact Had |]. split; [exact Hraise |]. rewrite Hc.
  vm_compute. reflexivity.
Defined.

End CallsOnTheSample.

(** * The Do Not Track views *)

(** X6.  With the Do Not Track setting off, both views answer 404.  With it
    on, the status view answers 200 with the content type
    [application/tracking-status+json]; "tracking" is "N" when the [DNT]
    header of the request is exactly "1" and "T" otherwise, also without the
    header; "policy" is the privacy policy URL when one is set and not
    empty, and is absent otherwise; there is no other key. *)
Theorem do_not_track_status (s : DntSettings) (request : HttpRequest) :
  (ADSERVER_DO_NOT_TRACK s = false →
   do_not_track s request = Raised Http404
   ∧ do_not_track_policy s request = Raised Http404)
  ∧ (ADSERVER_DO_NOT_TRACK s = true →
     ∃ resp, do_not_track s request = Returned resp
       ∧ json_status_code resp = 200
       ∧ json_content_type resp = "application/tracking-status+json"
       ∧ json_data resp !! "tracking"
         = Some (if bool_decide (META request !! "HTTP_DNT" = Some "1")
                 then "N" else "T")
       ∧ json_data resp !! "policy"
         = match ADSERVER_PRIVACY_POLICY_URL s with
           | Some url => if String.eqb url "" then None else Some url
           | None => None
           end
       ∧ ∀ key, key ≠ "tracking" → key ≠ "policy" →
                json_data resp !! key = None).
Proof.
  unfold do_not_track, do_not_track_policy. split.
  - intros ->. done.
  - intros ->. cbn [negb]. eexists. split; [reflexivity |].
    cbn [json_status_code json_content_type json_data].
    destruct (ADSERVER_PRIVACY_POLICY_URL s) as [url|]; cbn [truthy];
      [destruct (String.eqb url ""); cbn [negb] |];
      (split; [done |]); (split; [done |]); (split; [| split]).
    all: try (intros key Ht Hp).
    all: rewrite ?lookup_insert_eq, ?(lookup_insert_ne _ "policy") by done.
    all: first [ by rewrite lookup_singleton_eq
               | by rewrite lookup_singleton_ne
               | done ].
Qed.

(** * More on the report views *)

Section ReportRanges.
Context `{ReportCollaborators}.

(** X7.  The range of dates of a report is never inverted: the end date of
    the context, when there is one, is the [end_date] parameter as parsed and
    is not before the start date.  The start date is the [start_date]
    parameter as parsed whenever it parses, whatever the end date is, and
    today minus 30 days otherwise. *)
Theorem report_range_is_never_inverted request :
  let c := BaseReportView.context_data request in
  (∀ e, BaseReportView.end_date c = Some e →
        BaseReportView.start_date c ≤ e
        ∧ ∃ s, GET request !! "end_date" = Some s ∧ strptime_ymd s = Some e)
  ∧ (∀ s d, GET request !! "start_date" = Some s → strptime_ymd s = Some d →
            BaseReportView.start_date c = d)
  ∧ (BaseReportView.start_date c = get_ad_day - 30
     ∨ ∃ s, GET request !! "start_date" = Some s
            ∧ strptime_ymd s = Some (BaseReportView.start_date c)).
Proof.
  intros c. subst c.
  unfold BaseReportView.context_data, BaseReportView.get_start_date,
    BaseReportView.get_end_date, BaseReportView._parse_date_string,
    BaseReportView.DEFAULT_REPORT_DAYS.
  cbn [BaseReportView.start_date BaseReportView.end_date].
  split_and!.
  - intros e.
    destruct (GET request !! "end_date") as [s|]; [| done].
    destruct (strptime_ymd s) as [e'|] eqn:Hp; [| done].
    match goal with
    | |- context [e' <? ?x] => destruct (Z.ltb_spec e' x) as [Hlt|Hge]
    end; [done |].
    intros [= <-]. split; [done | by exists s].
  - intros s d Hs Hp. by rewrite Hs, Hp.
  - destruct (GET request !! "start_date") as [s|]; [| by left].
    destruct (strptime_ymd s) as [d|] eqn:Hp; [| by left].
    right. by exists s.
Qed.

End ReportRanges.

Section MergedDays.
Context `{ReportCollaborators}.

Lemma sum_Z_perm (l1 l2 : list Z) : l1 ≡ₚ l2 → sum_Z l1 = sum_Z l2.
Proof.
  induction 1 as [|x l1 l2 _ IH|x y l|l1 l2 l3 _ IH1 _ IH2].
  - done.
  - by rewrite !sum_Z_cons, IH.
  - rewrite !sum_Z_cons. lia.
  - by rewrite IH1.
Qed.

(** The sum of a field over the merged days, when a day is written. *)
Lemma sum_field_insert (f : DayAgg → Z) (m : gmap Z DayAgg) k v :
  sum_Z (map (λ da, f da.2) (map_to_list (<[k:=v]> m)))
  = sum_Z (map (λ da, f da.2) (map_to_list m))
    - match m !! k with Some old => f old | None => 0 end + f v.
Proof.
  destruct (m !! k) as [old|] eqn:Hk.
  - rewrite <- (insert_delete_eq m k v).
    rewrite (sum_Z_perm _ _
      (Permutation_map (λ da : Z * DayAgg, f da.2)
         (map_to_list_insert (delete k m) k v (lookup_delete_eq m k)))).
    rewrite <- (sum_Z_perm _ _
      (Permutation_map (λ da : Z * DayAgg, f da.2)
         (map_to_list_delete m k old Hk))).
    cbn [map snd]. rewrite !sum_Z_cons. lia.
  - rewrite (sum_Z_perm _ _
      (Permutation_map (λ da : Z * DayAgg, f da.2)
         (map_to_list_insert m k v Hk))).
    cbn [map snd]. rewrite sum_Z_cons. lia.
Qed.

Lemma merged_add_day name acc day :
  merged_views (add_day name acc day) = merged_views acc + day_views day
  ∧ merged_clicks (add_day name acc day) = merged_clicks acc + day_clicks day.
Proof.
  unfold merged_views, merged_clicks, add_day.
  rewrite !sum_field_insert. cbn [agg_views agg_clicks].
  destruct (acc !! day_date day); cbn [from_option id new_day agg_views agg_clicks];
    split; lia.
Qed.

Lemma merged_fold_add_day name rows : ∀ acc,
  merged_views (fold_left (add_day name) rows acc)
    = merged_views acc + sum_Z (map day_views rows)
  ∧ merged_clicks (fold_left (add_day name) rows acc)
    = merged_clicks acc + sum_Z (map day_clicks rows).
Proof.
  induction rows as [|r rs IH]; intros acc; cbn [fold_left map].
  - unfold sum_Z. simpl. split; lia.
  - destruct (IH (add_day name acc r)) as [-> ->].
    destruct (merged_add_day name acc r) as [-> ->].
    rewrite !sum_Z_cons. split; lia.
Qed.

Lemma merged_fold_add_report nrs : ∀ acc,
  merged_views (fold_left add_report nrs acc)
    = merged_views acc + sum_Z (map day_views (all_rows nrs))
  ∧ merged_clicks (fold_left add_report nrs acc)
    = merged_clicks acc + sum_Z (map day_clicks (all_rows nrs)).
Proof.
  induction nrs as [|[name r] nrs IH]; intros acc; cbn [fold_left].
  - unfold all_rows, sum_Z. simpl. split; lia.
  - destruct (IH (add_report acc (name, r))) as [-> ->].
    change (add_report acc (name, r))
      with (fold_left (add_day name) (days r) acc).
    destruct (merged_fold_add_day name (days r) acc) as [-> ->].
    unfold all_rows. cbn [map concat snd]. fold (all_rows nrs).
    rewrite !map_app, !sum_Z_app. split; lia.
Qed.

Lemma sum_all_rows (f : DayRow → Z) (nrs : list (string * Report)) :
  sum_Z (map f (all_rows nrs))
  = sum_Z (map (λ nr, sum_Z (map f (days nr.2))) nrs).
Proof.
  induction nrs as [|[name r] nrs IH].
  - done.
  - unfold all_rows. cbn [map concat snd]. fold (all_rows nrs).
    by rewrite map_app, sum_Z_app, sum_Z_cons, IH.
Qed.

(** The date as text of a merged day is that of its key. *)
Lemma fold_add_day_date name rows : ∀ acc,
  (∀ d a, acc !! d = Some a → agg_date a = strftime_ymd d) →
  ∀ d a, fold_left (add_day name) rows acc !! d = Some a →
         agg_date a = strftime_ymd d.
Proof.
  induction rows as [|r rs IH]; intros acc Hacc; cbn [fold_left]; [done |].
  apply IH. intros d a. unfold add_day.
  rewrite lookup_insert. case_decide as Hd.
  - intros [= <-]. by subst d.
  - apply Hacc.
Qed.

Lemma fold_add_report_date nrs : ∀ acc,
  (∀ d a, acc !! d = Some a → agg_date a = strftime_ymd d) →
  ∀ d a, fold_left add_report nrs acc !! d = Some a →
         agg_date a = strftime_ymd d.
Proof.
  induction nrs as [|[name r] nrs IH]; intros acc Hacc; cbn [fold_left]; [done |].
  apply IH. by apply fold_add_day_date.
Qed.

Lemma aggregate_days_merges nrs d : merges nrs d (aggregate_days nrs !! d).
Proof.
  pose proof (aggregate_days_lookup nrs d) as Hl. unfold merges.
  destruct (aggregate_days nrs !! d) as [a|] eqn:Ha; [| done].
  destruct Hl as (? & ? & ? & ? & ?). split_and!; try done.
  eapply (fold_add_report_date nrs ∅); [| exact Ha].
  intros d' a'. by rewrite lookup_empty.
Qed.

(** The breakdown of a merged day by entity: the last row written under a
    name stays. *)
Lemma fold_add_day_breakdown name rows : ∀ acc d name',
  let res := fold_left (add_day name) rows acc in
  let written := if decide (name' = name) then last (rows_on d rows) else None in
  views_by_entity (default new_day (res !! d)) !! name'
    = match written with
      | Some r => Some (day_views r)
      | None => views_by_entity (default new_day (acc !! d)) !! name'
      end
  ∧ clicks_by_entity (default new_day (res !! d)) !! name'
    = match written with
      | Some r => Some (day_clicks r)
      | None => clicks_by_entity (default new_day (acc !! d)) !! name'
      end.
Proof.
  induction rows as [|r rs IH]; intros acc d name'; cbn [fold_left]; cbv zeta.
  - unfold rows_on. rewrite filter_nil. cbn [last]. by case_decide.
  - specialize (IH (add_day name acc r) d name'). cbv zeta in IH.
    destruct IH as [-> ->]. rewrite rows_on_cons.
    destruct (decide (day_date r = d)) as [<-|Hne].
    + rewrite last_cons.
      assert (Hnew : add_day name acc r !! day_date r
                = Some {| agg_date := strftime_ymd (day_date r);
                          agg_views := agg_views (default new_day (acc !! day_date r))
                                       + day_views r;
                          agg_clicks := agg_clicks (default new_day (acc !! day_date r))
                                        + day_clicks r;
                          agg_cost :=
                            float_add (agg_cost (default new_day (acc !! day_date r)))
                                      (py_float (day_cost r));
                          agg_ctr := calculate_ctr
                            (agg_clicks (default new_day (acc !! day_date r))
                             + day_clicks r)
                            (agg_views (default new_day (acc !! day_date r))
                             + day_views r);
                          views_by_entity :=
                            <[ name := day_views r ]>
                              (views_by_entity (default new_day (acc !! day_date r)));
                          clicks_by_entity :=
                            <[ name := day_clicks r ]>
                              (clicks_by_entity (default new_day (acc !! day_date r)))
                       |})
        by (unfold add_day; by rewrite lookup_insert_eq).
      rewrite Hnew. cbn [from_option id views_by_entity clicks_by_entity].
      case_decide as Hname.
      * subst name'. destruct (last (rows_on (day_date r) rs)); [done |].
        by rewrite !lookup_insert_eq.
      * by rewrite !lookup_insert_ne.
    + by rewrite (add_day_other _ _ _ _ Hne).
Qed.

Lemma rows_named_cons name n r nrs :
  rows_named name ((n, r) :: nrs)
  = if decide (n = name) then days r ++ rows_named name nrs
    else rows_named name nrs.
Proof.
  unfold rows_named. rewrite filter_cons. cbn [fst].
  by case_decide.
Qed.

Lemma fold_add_report_breakdown nrs : ∀ acc d name,
  let res := fold_left add_report nrs acc in
  views_by_entity (default new_day (res !! d)) !! name
    = match last (rows_on d (rows_named name nrs)) with
      | Some r => Some (day_views r)
      | None => views_by_entity (default new_day (acc !! d)) !! name
      end
  ∧ clicks_by_entity (default new_day (res !! d)) !! name
    = match last (rows_on d (rows_named name nrs)) with
      | Some r => Some (day_clicks r)
      | None => clicks_by_entity (default new_day (acc !! d)) !! name
      end.
Proof.
  induction nrs as [|[n r] nrs IH]; intros acc d name; cbn [fold_left]; cbv zeta.
  - unfold rows_named, all_rows, rows_on. rewrite !filter_nil. done.
  - specialize (IH (add_report acc (n, r)) d name). cbv zeta in IH.
    destruct IH as [-> ->].
    change (add_report acc (n, r)) with (fold_left (add_day n) (days r) acc).
    pose proof (fold_add_day_breakdown n (days r) acc d name) as Hday.
    cbv zeta in Hday. destruct Hday as [-> ->].
    rewrite rows_named_cons.
    destruct (decide (name = n)) as [->|Hne].
    + rewrite decide_True by done. rewrite rows_on_app, last_app.
      by destruct (last (rows_on d (rows_named n nrs))).
    + rewrite decide_False by done. done.
Qed.

End MergedDays.

Section MultiEntityReports.
Context `{ReportCollaborators}.

(** X8.  In both multi-entity reports the loop over the reports kept makes,
    for every date, what merging means: a date without a row in any report
    kept is absent; a date with rows has one merged day, whose views and
    clicks are the sums over all these rows, whose cost is the costs of these
    rows added as doubles, one after the other in the order of the reports
    and of their rows, whose CTR is computed from the summed clicks and
    views, and whose date is the key as text. *)
Theorem merged_day_is_the_sum_of_its_rows db request d :
  let c := BaseReportView.context_data request in
  merges
    (map (λ pr, (publisher_name pr.1, pr.2))
         (AllPublisherReportView.publishers_and_reports db c))
    d (AllPublisherReportView.days_by_date db c !! d)
  ∧ merges
      (map (λ ar, (advertiser_name ar.1, ar.2))
           (AllAdvertiserReportView.advertisers_and_reports db c))
      d (AllAdvertiserReportView.days_by_date db c !! d).
Proof.
  intros c. split.
  - unfold AllPublisherReportView.days_by_date. apply aggregate_days_merges.
  - unfold AllAdvertiserReportView.days_by_date. apply aggregate_days_merges.
Qed.

(** X9.  The breakdown of a merged day by entity is keyed by the name of the
    entity, and an entry is overwritten, not added to: under a name the day
    holds the views and the clicks of the last row of its date among the
    reports kept that go by that name, and nothing when there is no such
    row. *)
Theorem breakdown_keeps_the_last_row_of_a_name db request d a name :
  let c := BaseReportView.context_data request in
  (let named := map (λ pr, (publisher_name pr.1, pr.2))
                    (AllPublisherReportView.publishers_and_reports db c) in
   AllPublisherReportView.days_by_date db c !! d = Some a →
   views_by_entity a !! name
     = day_views <$> last (rows_on d (rows_named name named))
   ∧ clicks_by_entity a !! name
     = day_clicks <$> last (rows_on d (rows_named name named)))
  ∧ (let named := map (λ ar, (advertiser_name ar.1, ar.2))
                      (AllAdvertiserReportView.advertisers_and_reports db c) in
     AllAdvertiserReportView.days_by_date db c !! d = Some a →
     views_by_entity a !! name
       = day_views <$> last (rows_on d (rows_named name named))
     ∧ clicks_by_entity a !! name
       = day_clicks <$> last (rows_on d (rows_named name named))).
Proof.
  intros c.
  assert (Hgen : ∀ nrs, aggregate_days nrs !! d = Some a →
            views_by_entity a !! name
              = day_views <$> last (rows_on d (rows_named name nrs))
            ∧ clicks_by_entity a !! name
              = day_clicks <$> last (rows_on d (rows_named name nrs))).
  { intros nrs Ha.
    pose proof (fold_add_report_breakdown nrs ∅ d name) as Hb.
    cbv zeta in Hb. fold (aggregate_days nrs) in Hb.
    rewrite Ha, lookup_empty in Hb. cbn [from_option id new_day] in Hb.
    cbn [views_by_entity clicks_by_entity] in Hb. rewrite ?lookup_empty in Hb.
    destruct Hb as [-> ->].
    by destruct (last (rows_on d (rows_named name nrs))). }
  split; intros named; apply Hgen.
Qed.

(** X10.  The merged days lose and add nothing: their views together, and
    their clicks together, are those of all rows of the reports kept.  When
    the total of every report kept is the sum of its days, the merged days
    add up to the [total_views] and [total_clicks] of the context. *)
Theorem merged_days_add_up db request :
  let c := BaseReportView.context_data request in
  let kept := AllPublisherReportView.publishers_and_reports db c in
  let merged := AllPublisherReportView.days_by_date db c in
  let ctx := AllPublisherReportView.get_context_data db request in
  merged_views merged
    = sum_Z (map (λ pr, sum_Z (map day_views (days pr.2))) kept)
  ∧ merged_clicks merged
    = sum_Z (map (λ pr, sum_Z (map day_clicks (days pr.2))) kept)
  ∧ (Forall (λ pr, total_views (total pr.2) = sum_Z (map day_views (days pr.2))
                   ∧ total_clicks (total pr.2)
                     = sum_Z (map day_clicks (days pr.2))) kept →
     ctx !! "total_views" = Some (VInt (merged_views merged))
     ∧ ctx !! "total_clicks" = Some (VInt (merged_clicks merged))).
Proof.
  intros c kept merged ctx.
  pose proof (merged_fold_add_report
                (map (λ pr, (publisher_name pr.1, pr.2)) kept) ∅) as Hm.
  fold (aggregate_days (map (λ pr, (publisher_name pr.1, pr.2)) kept)) in Hm.
  change (aggregate_days (map (λ pr, (publisher_name pr.1, pr.2)) kept))
    with merged in Hm.
  unfold merged_views at 2, merged_clicks at 2 in Hm.
  rewrite map_to_list_empty in Hm. cbn [map] in Hm.
  rewrite !sum_all_rows, !map_map in Hm. cbn [snd] in Hm.
  change (sum_Z []) with 0 in Hm.
  destruct Hm as [Hv Hc]. rewrite Z.add_0_l in Hv, Hc.
  split; [exact Hv |]. split; [exact Hc |].
  intros Hcons.
  assert (Htot :
    sum_Z (map (λ pr, total_views (total pr.2)) kept)
      = sum_Z (map (λ pr, sum_Z (map day_views (days pr.2))) kept)
    ∧ sum_Z (map (λ pr, total_clicks (total pr.2)) kept)
      = sum_Z (map (λ pr, sum_Z (map day_clicks (days pr.2))) kept)).
  { clear Hv Hc. induction Hcons as [|pr l [Hpv Hpc] _ [IHv IHc]]; [done |].
    cbn [map]. rewrite !sum_Z_cons, Hpv, Hpc, IHv, IHc. done. }
  destruct Htot as [Htv Htc].
  subst ctx. unfold AllPublisherReportView.get_context_data.
  fold c. fold kept. cbv zeta. unfold BaseReportView.to_dict.
  rewrite Hv, Hc, <- Htv, <- Htc.
  split.
  - repeat (rewrite lookup_insert_ne by done). by rewrite lookup_insert_eq.
  - repeat (rewrite lookup_insert_ne by done). by rewrite lookup_insert_eq.
Qed.

Lemma map_fst_filter_pairs {A B} (f : A → B) (P : A * B → Prop)
    `{∀ x, Decision (P x)} (l : list A) :
  map fst (filter P (map (λ x, (x, f x)) l)) = filter (λ x, P (x, f x)) l.
Proof.
  induction l as [|x l IH]; [done |].
  cbn [map]. rewrite !filter_cons. case_decide; cbn [map fst]; by rewrite IH.
Qed.

(** X11.  The entities that a multi-entity report lists are taken from the
    table in its order, each at most as often as the table has it: an entity
    with many impressions is listed once. *)
Theorem listed_entities_come_from_the_table db request :
  let c := BaseReportView.context_data request in
  let publishers :=
    map fst (AllPublisherReportView.publishers_and_reports db c) in
  let advertisers :=
    map fst (AllAdvertiserReportView.advertisers_and_reports db c) in
  sublist publishers (Publisher_objects db)
  ∧ sublist advertisers (Advertiser_objects db)
  ∧ (NoDup (Publisher_objects db) → NoDup publishers)
  ∧ (NoDup (Advertiser_objects db) → NoDup advertisers).
Proof.
  intros c publishers advertisers.
  assert (Hp : sublist publishers (Publisher_objects db)).
  { subst publishers. unfold AllPublisherReportView.publishers_and_reports.
    rewrite map_fst_filter_pairs.
    etrans; [apply sublist_filter |].
    unfold AllPublisherReportView.publishers_selected. apply sublist_filter. }
  assert (Ha : sublist advertisers (Advertiser_objects db)).
  { subst advertisers. unfold AllAdvertiserReportView.advertisers_and_reports.
    rewrite map_fst_filter_pairs.
    etrans; [apply sublist_filter |].
    unfold AllAdvertiserReportView.advertisers_selected. apply sublist_filter. }
  split_and!; [done | done | |].
  - intros Hnd. by eapply sublist_NoDup.
  - intros Hnd. by eapply sublist_NoDup.
Qed.

(** X12.  The report of all advertisers selects an advertiser of the table
    when one of the advertisements of its campaigns has an impression in the
    range of dates, and no other; the campaign type of the request plays no
    part. *)
Theorem advertisers_selected_by_impressions db request a :
  let c := BaseReportView.context_data request in
  a ∈ AllAdvertiserReportView.advertisers_selected db c ↔
  a ∈ Advertiser_objects db
  ∧ ∃ i ad,
      i ∈ AdImpression_objects db
      ∧ BaseReportView.start_date c ≤ imp_date i
      ∧ (∀ e, BaseReportView.end_date c = Some e → imp_date i ≤ e)
      ∧ ad ∈ Advertisement_objects db
      ∧ ad_pk ad = imp_advertisement i
      ∧ advertiser (campaign (flight ad)) = advertiser_pk a.
Proof.
  intros c.
  assert (Hrange : ∀ i, i ∈ AllAdvertiserReportView.impressions_in_range db c ↔
            i ∈ AdImpression_objects db
            ∧ BaseReportView.start_date c ≤ imp_date i
            ∧ (∀ e, BaseReportView.end_date c = Some e → imp_date i ≤ e)).
  { intros i. unfold AllAdvertiserReportView.impressions_in_range.
    destruct (BaseReportView.end_date c) as [e|].
    - rewrite !list_elem_of_filter. split.
      + intros (He & Hs & Hi). split_and!; [done | done |]. by intros ? [= <-].
      + intros (Hi & Hs & He). split_and!; [by apply He | done | done].
    - rewrite list_elem_of_filter. split.
      + intros (Hs & Hi). done.
      + intros (Hi & Hs & _). done. }
  unfold AllAdvertiserReportView.advertisers_selected.
  rewrite list_elem_of_filter, elem_of_map. split.
  - intros [(ad & Hadv & Had) Ha]. split; [done |].
    apply list_elem_of_filter in Had as [Hpk Had].
    apply elem_of_map in Hpk as (i & Hpk & Hi).
    apply Hrange in Hi as (Hi & Hs & He).
    exists i, ad. done.
  - intros (Ha & i & ad & Hi & Hs & He & Had & Hpk & Hadv). split; [| done].
    exists ad. split; [done |].
    apply list_elem_of_filter. split; [| done].
    apply elem_of_map. exists i. split; [done |]. by apply Hrange.
Qed.

End MultiEntityReports.

(** * The dashboard and the reports of one entity *)

Section EntityReports.
Context `{ReportCollaborators} `{Accounts}.

Lemma get_or_404_done {A} (rows : list A) (x : A) :
  get_or_404 rows = Done x ↔ rows = [x].
Proof.
  destruct rows as [|y [|z rows]]; cbn; split; intros Heq;
    by inversion Heq.
Qed.

Lemma get_or_404_not_found {A} (rows : list A) :
  get_or_404 rows = Failed NotFound ↔ rows = [].
Proof.
  destruct rows as [|y [|z rows]]; cbn; split; intros Heq;
    by inversion Heq.
Qed.

(** X13.  The report of an advertiser is refused to an anonymous user before
    anything is looked up: [test_func] answers [False] whatever the slug is,
    without a 404.  It answers [True] only for a user who is logged in, a
    slug that names one advertiser, and a user who is staff or has an
    advertiser with that primary key.  For a user who is logged in, staff or
    not, a slug that names no advertiser is a 404. *)
Theorem advertiser_report_access db request kwargs :
  (is_anonymous (user request) = true →
   AdvertiserReportView.test_func db request kwargs = Done false)
  ∧ (AdvertiserReportView.test_func db request kwargs = Done true ↔
     is_anonymous (user request) = false
     ∧ ∃ slug a,
         kwargs !! "advertiser_slug" = Some slug
         ∧ filter (λ x, advertiser_slug x = slug) (Advertiser_objects db) = [a]
         ∧ (is_staff (user request) = true
            ∨ advertiser_pk a
              ∈ map advertiser_pk (user_advertisers (user request))))
  ∧ (is_anonymous (user request) = false →
     ∀ slug, kwargs !! "advertiser_slug" = Some slug →
       filter (λ x, advertiser_slug x = slug) (Advertiser_objects db) = [] →
       AdvertiserReportView.test_func db request kwargs = Failed NotFound).
Proof.
  unfold AdvertiserReportView.test_func, advertiser_or_404. split_and!.
  - by intros ->.
  - destruct (is_anonymous (user request)).
    { split; [done | by intros [? _]]. }
    destruct (kwargs !! "advertiser_slug") as [slug|].
    2: { split; [done | by intros (_ & ? & ? & ? & _)]. }
    destruct (get_or_404 _) as [a|e] eqn:Hget.
    + apply get_or_404_done in Hget. split.
      * intros [= Hor]. split; [done |]. exists slug, a. split_and!; [done.. |].
        apply orb_true_iff in Hor as [Hs | Hin]; [by left | right].
        by apply bool_decide_eq_true in Hin.
      * intros (_ & slug' & a' & [= <-] & Hrows & Hor).
        rewrite Hget in Hrows. injection Hrows as <-. f_equal.
        apply orb_true_iff. destruct Hor as [Hs | Hin]; [by left | right].
        by apply bool_decide_eq_true.
    + split; [done |].
      intros (_ & slug' & a' & [= <-] & Hrows & _).
      apply get_or_404_done in Hrows. congruence.
  - intros -> slug -> Hrows. by rewrite Hrows.
Qed.

(** X14.  The report of a publisher is guarded in the same way: an anonymous
    user is refused before anything is looked up; [test_func] answers [True]
    only for a user who is logged in, a slug that names one publisher, and a
    user who is staff or has a publisher with that primary key; for a user
    who is logged in a slug that names no publisher is a 404. *)
Theorem publisher_report_access db request kwargs :
  (is_anonymous (user request) = true →
   PublisherReportView.test_func db request kwargs = Done false)
  ∧ (PublisherReportView.test_func db request kwargs = Done true ↔
     is_anonymous (user request) = false
     ∧ ∃ slug p,
         kwargs !! "publisher_slug" = Some slug
         ∧ filter (λ x, publisher_slug x = slug) (Publisher_objects db) = [p]
         ∧ (is_staff (user request) = true
            ∨ publisher_pk p
              ∈ map publisher_pk (user_publishers (user request))))
  ∧ (is_anonymous (user request) = false →
     ∀ slug, kwargs !! "publisher_slug" = Some slug →
       filter (λ x, publisher_slug x = slug) (Publisher_objects db) = [] →
       PublisherReportView.test_func db request kwargs = Failed NotFound).
Proof.
  unfold PublisherReportView.test_func, publisher_or_404. split_and!.
  - by intros ->.
  - destruct (is_anonymous (user request)).
    { split; [done | by intros [? _]]. }
    destruct (kwargs !! "publisher_slug") as [slug|].
    2: { split; [done | by intros (_ & ? & ? & ? & _)]. }
    destruct (get_or_404 _) as [p|e] eqn:Hget.
    + apply get_or_404_done in Hget. split.
      * intros [= Hor]. split; [done |]. exists slug, p. split_and!; [done.. |].
        apply orb_true_iff in Hor as [Hs | Hin]; [by left | right].
        by apply bool_decide_eq_true in Hin.
      * intros (_ & slug' & p' & [= <-] & Hrows & Hor).
        rewrite Hget in Hrows. injection Hrows as <-. f_equal.
        apply orb_true_iff. destruct Hor as [Hs | Hin]; [by left | right].
        by apply bool_decide_eq_true.
    + split; [done |].
      intros (_ & slug' & p' & [= <-] & Hrows & _).
      apply get_or_404_done in Hrows. congruence.
  - intros -> slug -> Hrows. by rewrite Hrows.
Qed.

(** X15.  The report of an advertiser is a 404 when its slug (the empty slug
    when the view is given none) names no advertiser.  For the advertiser
    that the slug names, the context lists the advertisements of the
    campaigns of this advertiser whose report has views, each with its daily
    report for the range of dates of the request; the totals are those of
    the daily report of the advertiser, not sums over the advertisements
    listed. *)
Theorem advertiser_report_context db request kwargs :
  let c := BaseReportView.context_data request in
  let sd := BaseReportView.start_date c in
  let ed := BaseReportView.end_date c in
  let slug := default "" (kwargs !! "advertiser_slug") in
  let rows := filter (λ x, advertiser_slug x = slug) (Advertiser_objects db) in
  (rows = [] →
   AdvertiserReportView.get_context_data db request kwargs = Failed NotFound)
  ∧ (∀ a, rows = [a] →
     let report := advertiser_daily_reports db a sd ed in
     ∃ ctx listed,
       AdvertiserReportView.get_context_data db request kwargs = Done ctx
       ∧ ctx !! "advertiser" = Some (EAdvertiser a)
       ∧ ctx !! "advertiser_report" = Some (EReport report)
       ∧ ctx !! "ads_and_reports" = Some (EAdReports listed)
       ∧ (∀ ad r, (ad, r) ∈ listed ↔
            ad ∈ Advertisement_objects db
            ∧ advertiser (campaign (flight ad)) = advertiser_pk a
            ∧ r = advertisement_daily_reports db ad sd ed
            ∧ total_views (total r) ≠ 0)
       ∧ ctx !! "total_views" = Some (EBase (VInt (total_views (total report))))
       ∧ ctx !! "total_clicks" = Some (EBase (VInt (total_clicks (total report))))
       ∧ ctx !! "total_cost" = Some (EBase (VNum (total_cost (total report))))
       ∧ ctx !! "total_ctr" = Some (EBase (VNum (total_ctr (total report))))
       ∧ ctx !! "start_date" = Some (EBase (VDate sd))
       ∧ ctx !! "end_date" = Some (EBase (VOptDate ed))).
Proof.
  intros c sd ed slug rows.
  unfold AdvertiserReportView.get_context_data, advertiser_or_404.
  fold c slug. fold rows. split.
  - by intros ->.
  - intros a Hrows. cbv zeta. rewrite Hrows. cbn [get_or_404].
    eexists _, _. split; [reflexivity |].
    unfold entity_context, BaseReportView.to_dict.
    split_and!.
    1-3, 5-10:
      repeat (rewrite lookup_insert_ne by done);
      first [ by rewrite lookup_insert_eq
            | rewrite lookup_fmap;
              repeat (rewrite lookup_insert_ne by done);
              by rewrite lookup_insert_eq ].
    intros ad r. rewrite list_elem_of_filter, elem_of_map. cbn [snd]. split.
    + intros (Hv & ad' & [= -> ->] & Had).
      apply list_elem_of_filter in Had as [Hadv Had]. done.
    + intros (Had & Hadv & -> & Hv). split; [done |].
      exists ad. split; [done |]. by apply list_elem_of_filter.
Qed.

(** X16.  The two publisher reports agree: for a publisher that the report
    of all publishers keeps, the report of this one publisher, asked for the
    same dates by the slug of the publisher, shows the report that the
    report of all publishers pairs with it. *)
Theorem publisher_report_agrees_with_report_of_all db request kwargs p r :
  (p, r) ∈ AllPublisherReportView.publishers_and_reports db
             (BaseReportView.context_data request) →
  kwargs !! "publisher_slug" = Some (publisher_slug p) →
  filter (λ x, publisher_slug x = publisher_slug p) (Publisher_objects db) = [p] →
  ∃ ctx, PublisherReportView.get_context_data db request kwargs = Done ctx
    ∧ ctx !! "publisher" = Some (EPublisher p)
    ∧ ctx !! "report" = Some (EReport r).
Proof.
  intros Hkept Hslug Hrows.
  unfold AllPublisherReportView.publishers_and_reports in Hkept.
  apply list_elem_of_filter in Hkept as [_ Hkept].
  apply elem_of_map in Hkept as (p' & [= <- ->] & _).
  unfold PublisherReportView.get_context_data, publisher_or_404.
  rewrite Hslug. cbn [default from_option id]. rewrite Hrows. cbn [get_or_404].
  eexists. split; [reflexivity |]. split.
  - by rewrite lookup_insert_eq.
  - rewrite lookup_insert_ne by done. by rewrite lookup_insert_eq.
Qed.

Lemma advertiser_report_access_aux db request a :
  is_anonymous (user request) = false →
  (is_staff (user request) = true
   ∨ advertiser_pk a ∈ map advertiser_pk (user_advertisers (user request))) →
  filter (λ x, advertiser_slug x = advertiser_slug a) (Advertiser_objects db)
    = [a] →
  AdvertiserReportView.test_func db request
    {[ "advertiser_slug" := advertiser_slug a ]} = Done true.
Proof.
  intros Hanon Hor Hrows.
  unfold AdvertiserReportView.test_func, advertiser_or_404.
  rewrite Hanon, lookup_singleton_eq, Hrows. cbn [get_or_404]. f_equal.
  apply orb_true_iff. destruct Hor as [Hs | Hin]; [by left | right].
  by apply bool_decide_eq_true.
Qed.

Lemma publisher_report_access_aux db request p :
  is_anonymous (user request) = false →
  (is_staff (user request) = true
   ∨ publisher_pk p ∈ map publisher_pk (user_publishers (user request))) →
  filter (λ x, publisher_slug x = publisher_slug p) (Publisher_objects db)
    = [p] →
  PublisherReportView.test_func db request
    {[ "publisher_slug" := publisher_slug p ]} = Done true.
Proof.
  intros Hanon Hor Hrows.
  unfold PublisherReportView.test_func, publisher_or_404.
  rewrite Hanon, lookup_singleton_eq, Hrows. cbn [get_or_404]. f_equal.
  apply orb_true_iff. destruct Hor as [Hs | Hin]; [by left | right].
  by apply bool_decide_eq_true.
Qed.

(** X17.  The dashboard sends an anonymous user to the login page.  A user
    who is not staff gets the advertisers and publishers of this user.  Every
    advertiser and publisher on the page of a user, whose slug names it alone
    in its table, is one whose report this user may open. *)
Theorem dashboard_lists_what_the_user_may_open db request :
  (dashboard db request = LoginRedirect ↔ is_anonymous (user request) = true)
  ∧ ∀ advertisers publishers,
      dashboard db request = DashboardPage advertisers publishers →
      (is_staff (user request) = false →
       advertisers = user_advertisers (user request)
       ∧ publishers = user_publishers (user request))
      ∧ (∀ a, a ∈ advertisers →
           filter (λ x, advertiser_slug x = advertiser_slug a)
                  (Advertiser_objects db) = [a] →
           AdvertiserReportView.test_func db request
             {[ "advertiser_slug" := advertiser_slug a ]} = Done true)
      ∧ (∀ p, p ∈ publishers →
           filter (λ x, publisher_slug x = publisher_slug p)
                  (Publisher_objects db) = [p] →
           PublisherReportView.test_func db request
             {[ "publisher_slug" := publisher_slug p ]} = Done true).
Proof.
  unfold dashboard. split.
  - destruct (is_anonymous (user request)); [done |].
    by destruct (is_staff (user request)).
  - intros advertisers publishers Hpage.
    destruct (is_anonymous (user request)) eqn:Hanon; [done |].
    assert (Hown : is_staff (user request) = false →
              advertisers = user_advertisers (user request)
              ∧ publishers = user_publishers (user request)).
    { intros Hs. rewrite Hs in Hpage. by injection Hpage as <- <-. }
    split; [exact Hown |]. split.
    + intros a Ha Hrows. apply advertiser_report_access_aux; [done | | done].
      destruct (is_staff (user request)); [by left | right].
      destruct Hown as [-> _]; [done |]. apply elem_of_map. by exists a.
    + intros p Hp Hrows. apply publisher_report_access_aux; [done | | done].
      destruct (is_staff (user request)); [by left | right].
      destruct Hown as [_ ->]; [done |]. apply elem_of_map. by exists p.
Qed.

End EntityReports.

Lemma publisher_report_agrees_with_report_of_all_witness :
  let E := SampleReports.collaborators in
  let A := SampleAccounts.accounts in
  let request := SampleAccounts.member ∅ in
  let r := publisher_report SampleReports.db SampleReports.alpha 18292 None in
  total_views (total r) = 10
  ∧ ∃ ctx,
      @PublisherReportView.get_context_data E A SampleReports.db request
        {[ "publisher_slug" := "alpha" ]} = Done ctx
      ∧ ctx !! "publisher" = Some (EPublisher SampleReports.alpha)
      ∧ ctx !! "report" = Some (EReport r).
Proof.
  intros E A request r.
  split; [vm_compute; reflexivity |].
  apply (@publisher_report_agrees_with_report_of_all E A SampleReports.db
           request {[ "publisher_slug" := "alpha" ]} SampleReports.alpha r).
  - assert (Hkept : ∃ rest,
      @AllPublisherReportView.publishers_and_reports E SampleReports.db
        (@BaseReportView.context_data E request)
      = (SampleReports.alpha, r) :: rest)
      by (eexists; vm_compute; reflexivity).
    destruct Hkept as [rest ->]. apply list_elem_of_here.
  - vm_compute. reflexivity.
  - vm_compute. reflexivity.
Defined.
